(** * FDM-SUMO: dispersion and exposure pipeline

    A shallow embedding of the numeric core of the repository:

    - [process_gas_to_aqi.py]: the US AQI and the Irish AQIH breakpoint
      interpolation ([calculate_aqi_for_pollutant_US_AQI],
      [calculate_aqi_for_pollutant_AQIH]);
    - [emission_models.py]: the diffusion/decay grid step
      ([_add_emissions], [_process_diffusion]), the
      noise field ([process_noise]) and the stability bound
      ([calculate_optimal_dt]);
    - [run_sim.py]: the choice of the time step [dt];
    - [process_data.py]: the grouping of snapshot files, the overall
      statistics and the moving averages.

    Number model.  A Python float is read in two ways.  Where a property
    does not depend on rounding (the rows of the index tables, maxima and
    minima, which cell a loop writes) floats are read as exact numbers:
    rationals [Q], so that every definition evaluates, and real numbers
    [R] for the levels of the noise model, which needs [log10] and powers
    of ten.  Where rounding, an overflow or NaN decides a property (the
    choice of the time step, the average of the snapshots, the floor of
    the diffusion step, the cell of a position) the functions are
    embedded over the primitive binary64 numbers, in the module [B64] at
    the end of Part I. *)

From Stdlib Require Import ZArith QArith Qround Qabs Qminmax List Bool Lia Psatz.
From Stdlib Require Import String Ascii Permutation Reals.
From Stdlib Require Import Floats.

#[local] Set Warnings "-inexact-float".
Import ListNotations.

Local Open Scope Q_scope.

(* ================================================================== *)
(** * Part I: definitions *)
(* ================================================================== *)

(** ** Comparisons on rationals, as booleans *)

Definition Qlt_bool (a b : Q) : bool := negb (Qle_bool b a).

(* ------------------------------------------------------------------ *)
(** ** process_gas_to_aqi.py *)

(** The [pollutant] argument of both converters: the strings ['CO'],
    ['NO2'] and ['PM2.5']. *)
Inductive pollutant : Type := CO | NO2 | PM25.

(** A row [[concentration_low, concentration_high, index_low, index_high]]
    of the US table. *)
Record breakpoint : Type := mk_bp {
  conc_low : Q;
  conc_high : Q;
  index_low : Q;
  index_high : Q
}.

Definition breakpoints_US_AQI (p : pollutant) : list breakpoint :=
  match p with
  | CO =>
      [ mk_bp 0 4.4 0 50;
        mk_bp 4.5 9.4 51 100;
        mk_bp 9.5 12.4 101 150;
        mk_bp 12.5 15.4 151 200;
        mk_bp 15.5 30.4 201 300;
        mk_bp 30.5 40.4 301 400;
        mk_bp 40.5 50.4 401 500 ]
  | NO2 =>
      [ mk_bp 0 53 0 50;
        mk_bp 54 100 51 100;
        mk_bp 101 360 101 150;
        mk_bp 361 649 151 200;
        mk_bp 650 1249 201 300;
        mk_bp 1250 1649 301 400;
        mk_bp 1650 2049 401 500 ]
  | PM25 =>
      [ mk_bp 0 12.0 0 50;
        mk_bp 12.1 35.4 51 100;
        mk_bp 35.5 55.4 101 150;
        mk_bp 55.5 150.4 151 200;
        mk_bp 150.5 250.4 201 300;
        mk_bp 250.5 350.4 301 400;
        mk_bp 350.5 500.4 401 500 ]
  end.

(** [((bp[3] - bp[2]) / (bp[1] - bp[0])) * (concentration - bp[0]) + bp[2]] *)
Definition interpolate_US (bp : breakpoint) (concentration : Q) : Q :=
  ((index_high bp - index_low bp) / (conc_high bp - conc_low bp))
  * (concentration - conc_low bp) + index_low bp.

(** The [for bp in breakpoints[pollutant]] loop with its early [return]:
    [Some aqi] when a row matches, [None] when the loop falls through. *)
Fixpoint scan_US_AQI (bps : list breakpoint) (concentration : Q) : option Q :=
  match bps with
  | [] => None
  | bp :: rest =>
      if Qle_bool (conc_low bp) concentration
         && Qle_bool concentration (conc_high bp)
      then Some (interpolate_US bp concentration)
      else scan_US_AQI rest concentration
  end.

Definition no_breakpoint : breakpoint := mk_bp 0 0 0 0.

Definition calculate_aqi_for_pollutant_US_AQI
    (concentration : Q) (p : pollutant) : Q :=
  match scan_US_AQI (breakpoints_US_AQI p) concentration with
  | Some aqi => aqi
  | None =>
      (* breakpoints[pollutant][-1][1] *)
      if Qlt_bool (conc_high (last (breakpoints_US_AQI p) no_breakpoint))
                  concentration
      then 500
      else 0
  end.

(** An upper bound of an AQIH row: a number or [float('inf')]. *)
Inductive bound : Type :=
| Fin (q : Q)
| PInf.

Record breakpoint_AQIH : Type := mk_bph {
  h_conc_low : Q;
  h_conc_high : bound;
  h_index_low : Q;
  h_index_high : Q
}.

Definition breakpoints_AQIH (p : pollutant) : option (list breakpoint_AQIH) :=
  match p with
  | NO2 => Some
      [ mk_bph 0 (Fin 67) 1 1;
        mk_bph 67 (Fin 134) 1 2;
        mk_bph 134 (Fin 200) 2 3;
        mk_bph 200 (Fin 267) 3 4;
        mk_bph 267 (Fin 334) 4 5;
        mk_bph 334 (Fin 400) 5 6;
        mk_bph 400 (Fin 467) 6 7;
        mk_bph 467 (Fin 534) 7 8;
        mk_bph 534 (Fin 600) 8 9;
        mk_bph 600 PInf 9 10 ]
  | PM25 => Some
      [ mk_bph 0 (Fin 11) 1 1;
        mk_bph 11 (Fin 23) 1 2;
        mk_bph 23 (Fin 35) 2 3;
        mk_bph 35 (Fin 53) 3 4;
        mk_bph 53 (Fin 70) 4 5;
        mk_bph 70 (Fin 88) 5 6;
        mk_bph 88 (Fin 106) 6 7;
        mk_bph 106 (Fin 124) 7 8;
        mk_bph 124 (Fin 142) 8 9;
        mk_bph 142 PInf 9 10 ]
  | CO => None
  end.

(** [concentration < bp[1]] for a finite concentration. *)
Definition lt_bound (concentration : Q) (b : bound) : bool :=
  match b with
  | Fin h => Qlt_bool concentration h
  | PInf => true
  end.

(** [(bp[3] - bp[2]) / (bp[1] - bp[0])]: a finite number divided by
    [inf - bp[0] = inf] is [0.0]. *)
Definition slope_AQIH (bp : breakpoint_AQIH) : Q :=
  match h_conc_high bp with
  | Fin h => (h_index_high bp - h_index_low bp) / (h - h_conc_low bp)
  | PInf => 0
  end.

Definition interpolate_AQIH (bp : breakpoint_AQIH) (concentration : Q) : Q :=
  slope_AQIH bp * (concentration - h_conc_low bp) + h_index_low bp.

Fixpoint scan_AQIH (bps : list breakpoint_AQIH) (concentration : Q)
  : option Q :=
  match bps with
  | [] => None
  | bp :: rest =>
      if Qle_bool (h_conc_low bp) concentration
         && lt_bound concentration (h_conc_high bp)
      then Some (interpolate_AQIH bp concentration)
      else scan_AQIH rest concentration
  end.

(** [None] is the [AssertionError] raised for ['CO']; the diagnostic
    printed for a negative concentration is not part of the result. *)
Definition calculate_aqi_for_pollutant_AQIH
    (concentration : Q) (p : pollutant) : option Q :=
  match breakpoints_AQIH p with
  | None => None
  | Some bps =>
      if Qlt_bool concentration 0 then Some 1
      else match scan_AQIH bps concentration with
           | Some aqi => Some aqi
           | None => Some 10
           end
  end.

(** The value returned by a call that may raise. *)
Definition returns (r : option Q) (v : Q) : Prop :=
  match r with
  | Some x => x == v
  | None => False
  end.


(* ------------------------------------------------------------------ *)
(** ** emission_models.py: calculate_optimal_dt; run_sim.py: dt

    In exact arithmetic. *)

(** Division as the code performs it.  [None] stands for a zero divisor:
    Python raises [ZeroDivisionError] (numpy floats give [inf] or [nan]);
    neither is a rational. *)
Definition div (a b : Q) : option Q :=
  if Qeq_bool b 0 then None else Some (a / b).

Definition bind {A B : Type} (m : option A) (k : A -> option B) : option B :=
  match m with
  | Some a => k a
  | None => None
  end.

Notation "x <- m ;; k" := (bind m (fun x => k))
  (at level 61, m at next level, right associativity).

Definition calculate_optimal_dt
    (cell_len_x_m cell_len_y_m cell_len_z_m diffusion loss_rate
     safety_factor : Q) : option Q :=
  diff_x <- div diffusion (cell_len_x_m * cell_len_x_m) ;;
  diff_y <- div diffusion (cell_len_y_m * cell_len_y_m) ;;
  diff_z <- div diffusion (cell_len_z_m * cell_len_z_m) ;;
  max_stable_dt <- div 2 (loss_rate + 4 * (diff_x + diff_y + diff_z)) ;;
  Some (max_stable_dt * safety_factor).

(** run_sim.py, lines 149-153: [n = math.ceil(1/dt)], [dt = 1/n],
    [dt = min(dt, 1)]. *)
Definition fit_dt_to_second (dt : Q) : option Q :=
  inv <- div 1 dt ;;
  let n := Qceiling inv in
  dt' <- div 1 (inject_Z n) ;;
  Some (Qmin dt' 1).

(* ------------------------------------------------------------------ *)
(** ** config.py *)

Record config : Type := mk_config {
  GRID_LEFT : Z;
  GRID_RIGHT : Z;
  GRID_TOP : Z;
  GRID_BOTTOM : Z;
  GRID_DIM_Y : nat;
  GRID_DIM_X : nat;
  GRID_DIM_Z : nat
}.

(** The grid that [config.py] selects. *)
Definition erstfeld : config :=
  mk_config 16850 18630 37720 35000 250 160 50.

(** A grid of 2 x 2 x 1 cells of side 10, for evaluation. *)
Definition small_grid : config :=
  mk_config 0 20 20 0 2 2 1.

(* ------------------------------------------------------------------ *)
(** ** emission_models.py: the diffusion step *)

(** *** Arrays

    A numpy array is its shape and its cells, read through an index; an
    assignment [a[k] = v] replaces one cell.  Indices are not checked
    against the shape, as in the compiled loops. *)

Section Arrays.

Context {K V : Type} (eqb : K -> K -> bool).

Definition upd (m : K -> V) (k : K) (v : V) : K -> V :=
  fun k' => if eqb k' k then v else m k'.

End Arrays.

Definition index3 : Type := (Z * (Z * Z))%type.

Definition index3_eqb (a b : index3) : bool :=
  ((fst a =? fst b) && ((fst (snd a) =? fst (snd b))
                        && (snd (snd a) =? snd (snd b))))%Z.

Record array3 : Type := mk_array3 {
  shape : nat * nat * nat;
  cells : index3 -> Q
}.

Definition get3 (a : array3) (i j k : Z) : Q := cells a (i, (j, k)).

Definition set3 (a : array3) (i j k : Z) (v : Q) : array3 :=
  mk_array3 (shape a) (upd index3_eqb (cells a) (i, (j, k)) v).

(** [np.zeros(shape)] followed by [fill(v)]. *)
Definition full (sh : nat * nat * nat) (v : Q) : array3 :=
  mk_array3 sh (fun _ => v).



Definition loop2 (xs ys : list Z) : list (Z * Z) := list_prod xs ys.

(** *** _add_emissions

    The arrays [x_indices], [y_indices] and [emissions] have one entry per
    vehicle; the loop visits the entries in order. *)
Definition _add_emissions (old_matrix : array3) (x_indices y_indices : list Z)
    (emissions : list Q) (grid_dim_x grid_dim_y : Z) : array3 :=
  fold_left
    (fun m entry =>
       let x_idx := fst (fst entry) in
       let y_idx := snd (fst entry) in
       if ((0 <=? x_idx) && (x_idx <? grid_dim_x)
           && ((0 <=? y_idx) && (y_idx <? grid_dim_y)))%Z
       then set3 m x_idx y_idx 0 (get3 m x_idx y_idx 0 + snd entry)
       else m)
    (combine (combine x_indices y_indices) emissions)
    old_matrix.

(** The mass that the sources put into cell [(i, j, 0)]: the sum of the
    emissions whose indices are [(i, j)]. *)
Definition injected (x_indices y_indices : list Z) (emissions : list Q)
    (i j : Z) : Q :=
  fold_right
    (fun entry acc =>
       if ((fst (fst entry) =? i) && (snd (fst entry) =? j))%Z
       then snd entry + acc else acc)
    0
    (combine (combine x_indices y_indices) emissions).

(** The grid geometry that the driver works with: a box that is not
    empty, cut into at least one cell along x and y. *)
Definition valid_grid (cfg : config) : Prop :=
  (GRID_LEFT cfg < GRID_RIGHT cfg)%Z /\
  (GRID_BOTTOM cfg < GRID_TOP cfg)%Z /\
  (0 < GRID_DIM_X cfg)%nat /\ (0 < GRID_DIM_Y cfg)%nat.

(** A field with every cell at the same mass. *)
Definition uniform_field (cfg : config) (mass : Q) : array3 :=
  full (GRID_DIM_X cfg, GRID_DIM_Y cfg, GRID_DIM_Z cfg) mass.

(* ------------------------------------------------------------------ *)
(** ** process_data.py *)

(** *** Arrays

    Every array of the aggregator has the shape
    [(GRID_DIM_X, GRID_DIM_Y)]; numpy's element-wise operations are
    written cell by cell. *)

Definition grid : Type := nat -> nat -> Q.

(** An array that may still hold [np.inf]. *)
Definition grid_inf : Type := nat -> nat -> bound.

Definition np_zeros : grid := fun _ _ => 0.
Definition np_full_inf : grid_inf := fun _ _ => PInf.

Definition np_maximum (a b : grid) : grid :=
  fun x y => Qmax (a x y) (b x y).

Definition np_minimum (a : grid_inf) (b : grid) : grid_inf :=
  fun x y =>
    match a x y with
    | PInf => Fin (b x y)
    | Fin m => Fin (Qmin m (b x y))
    end.

(** [min_array[np.isinf(min_array)] = 0] *)
Definition replace_inf_by_zero (a : grid_inf) : grid :=
  fun x y =>
    match a x y with
    | PInf => 0
    | Fin m => m
    end.

Definition grid_add (a b : grid) : grid := fun x y => a x y + b x y.
Definition grid_sub (a b : grid) : grid := fun x y => a x y - b x y.
Definition grid_div (a : grid) (n : nat) : grid :=
  fun x y => a x y / inject_Z (Z.of_nat n).

(** *** Dictionaries

    A Python [dict] keeps its keys in insertion order; assigning to a key
    that is present replaces the value in place. *)

Section Dict.

Context {K V : Type} (eqb : K -> K -> bool).

Fixpoint dict_get (k : K) (d : list (K * V)) : option V :=
  match d with
  | [] => None
  | (k', v) :: rest => if eqb k k' then Some v else dict_get k rest
  end.

Fixpoint dict_set (k : K) (v : V) (d : list (K * V)) : list (K * V) :=
  match d with
  | [] => [(k, v)]
  | (k', v') :: rest =>
      if eqb k k' then (k', v) :: rest else (k', v') :: dict_set k v rest
  end.

Definition dict_keys (d : list (K * V)) : list K := map fst d.

End Dict.

(** [if key not in d: d[key] = []] followed by [d[key].append(x)]. *)
Fixpoint dict_append {V : Type} (key : string) (x : V)
    (d : list (string * list V)) : list (string * list V) :=
  match d with
  | [] => [(key, [x])]
  | (k, l) :: rest =>
      if String.eqb key k then (k, l ++ [x]) :: rest
      else (k, l) :: dict_append key x rest
  end.

(** *** Sorting

    [list.sort(key=...)] and [sorted] are stable; so is insertion from the
    right, which puts an element in front of the later elements with the
    same key. *)

Section Sort.

Context {A : Type} (key : A -> Z).

Fixpoint insert_sorted (x : A) (l : list A) : list A :=
  match l with
  | [] => [x]
  | y :: rest =>
      if (key x <=? key y)%Z then x :: y :: rest
      else y :: insert_sorted x rest
  end.

Fixpoint sort_by (l : list A) : list A :=
  match l with
  | [] => []
  | x :: rest => insert_sorted x (sort_by rest)
  end.

End Sort.

Definition sorted (l : list Z) : list Z := sort_by (fun t => t) l.

(** *** Files and outputs *)

(** A snapshot file: its path and the array [pd.read_csv(file).values]. *)
Record csv_file : Type := mk_file {
  file_path : string;
  file_values : grid
}.

(** Which file [save_vec_to_csv] writes: [{key}_max.csv], [{key}_min.csv],
    [{key}_avg.csv], [{key}_diff.csv] or
    [{key}_{window_name}_avg_{time_label}{start_hour}.csv]. *)
Inductive statistic : Type :=
| stat_max
| stat_min
| stat_avg
| stat_diff
| stat_window (window_name time_label : string) (start_hour : Z).

Record output : Type := mk_output {
  out_key : string;
  out_stat : statistic;
  out_values : grid
}.

(** *** calculate_moving_average_for_window *)

Definition in_window (start_time window_size t : Z) : bool :=
  ((start_time <=? t) && (t <? start_time + window_size))%Z.

(** The loop [for t in window_timestamps: window_sum += timestamp_data[t];
    count += 1]; [None] is a [KeyError]. *)
Definition sum_window (timestamp_data : list (Z * grid))
    (window_timestamps : list Z) : option (grid * nat) :=
  fold_left
    (fun acc t =>
       match acc, dict_get Z.eqb t timestamp_data with
       | Some (window_sum, count), Some g =>
           Some (grid_add window_sum g, S count)
       | _, _ => None
       end)
    window_timestamps (Some (np_zeros, O)).

(** One iteration of [for start_time in timestamps]: the files it saves. *)
Definition moving_average_at (data_key : string) (timestamps : list Z)
    (timestamp_data : list (Z * grid)) (window_size : Z) (min_points : nat)
    (window_name time_label : string) (start_time : Z)
  : option (list output) :=
  let window_timestamps :=
    filter (in_window start_time window_size) timestamps in
  if (min_points <=? List.length window_timestamps)%nat then
    match sum_window timestamp_data window_timestamps with
    | Some (window_sum, count) =>
        let window_avg := grid_div window_sum count in
        (* int(start_time / HOUR_SEC) *)
        let start_hour := Z.quot start_time 3600 in
        Some [mk_output data_key
                (stat_window window_name time_label start_hour) window_avg]
    | None => None
    end
  else Some [].

(** The files saved by a sequence of steps that may raise. *)
Fixpoint collect {A : Type} (body : A -> option (list output))
    (l : list A) : option (list output) :=
  match l with
  | [] => Some []
  | a :: rest =>
      match body a with
      | Some outs =>
          match collect body rest with
          | Some outs' => Some (outs ++ outs')
          | None => None
          end
      | None => None
      end
  end.

Definition calculate_moving_average_for_window (data_key : string)
    (timestamps : list Z) (timestamp_data : list (Z * grid))
    (window_size : Z) (min_points : nat) (window_name time_label : string)
  : option (list output) :=
  collect
    (moving_average_at data_key timestamps timestamp_data window_size
       min_points window_name time_label)
    timestamps.

(** *** calculate_moving_averages *)

Record window : Type := mk_window {
  name : string;
  window_size : Z;
  min_points : nat;
  label : string
}.

Definition HOUR_SEC : Z := 3600.
Definition EIGHT_HOUR_SEC : Z := 8 * HOUR_SEC.
Definition DAY_SEC : Z := 24 * HOUR_SEC.

Definition windows : list window :=
  [ mk_window "1h"%string HOUR_SEC 1 "hour"%string;
    mk_window "8h"%string EIGHT_HOUR_SEC 8 "from_hour"%string;
    mk_window "24h"%string DAY_SEC 24 "from_hour"%string ].

Definition calculate_moving_averages (data_key : string)
    (timestamp_data : list (Z * grid)) : option (list output) :=
  let timestamps := sorted (dict_keys timestamp_data) in
  if (List.length timestamps =? 0)%nat then Some []
  else
    collect
      (fun w =>
         calculate_moving_average_for_window data_key timestamps
           timestamp_data (window_size w) (min_points w) (name w) (label w))
      windows.

(** *** calculate_statistics *)

Record statistics : Type := mk_statistics {
  max_array : grid;
  min_array : grid_inf;
  sum_array : grid;
  timestamp_data : list (Z * grid)
}.

(** One iteration of [for file, timestamp in file_data]. *)
Definition accumulate (s : statistics) (entry : csv_file * Z) : statistics :=
  let current_array := file_values (fst entry) in
  mk_statistics
    (np_maximum (max_array s) current_array)
    (np_minimum (min_array s) current_array)
    (grid_add (sum_array s) current_array)
    (dict_set Z.eqb (snd entry) current_array (timestamp_data s)).

Definition initial_statistics : statistics :=
  mk_statistics np_zeros np_full_inf np_zeros [].

Definition accumulate_all (file_data : list (csv_file * Z)) : statistics :=
  fold_left accumulate (sort_by snd file_data) initial_statistics.

Definition overall_max (file_data : list (csv_file * Z)) : grid :=
  max_array (accumulate_all file_data).

Definition overall_min (file_data : list (csv_file * Z)) : grid :=
  replace_inf_by_zero (min_array (accumulate_all file_data)).

(** [sum_array / file_count if file_count > 0 else sum_array] *)
Definition overall_avg (file_data : list (csv_file * Z)) : grid :=
  let file_count := List.length (sort_by snd file_data) in
  if (0 <? file_count)%nat
  then grid_div (sum_array (accumulate_all file_data)) file_count
  else sum_array (accumulate_all file_data).

Definition overall_diff (file_data : list (csv_file * Z)) : grid :=
  grid_sub (overall_max file_data) (overall_min file_data).

Definition calculate_statistics (data_key : string)
    (file_data : list (csv_file * Z)) : option (list output) :=
  match calculate_moving_averages data_key
          (timestamp_data (accumulate_all file_data)) with
  | Some moving =>
      Some ([ mk_output data_key stat_max (overall_max file_data);
              mk_output data_key stat_min (overall_min file_data);
              mk_output data_key stat_avg (overall_avg file_data);
              mk_output data_key stat_diff (overall_diff file_data) ]
            ++ moving)
  | None => None
  end.

(** *** The windowed average in the words of the specification

    For a window that starts at an observed timestamp [t]: when at least
    [min_points] observed timestamps lie in [[t, t + window_size)], the
    arithmetic mean of the snapshots with those timestamps, labelled with
    the hour [floor(t / 3600)]; nothing otherwise. *)

Definition snapshot_at (timestamp_data : list (Z * grid)) (t : Z) : grid :=
  match dict_get Z.eqb t timestamp_data with
  | Some g => g
  | None => np_zeros
  end.







(** *** Invariant of the accumulation loop, and sample data *)

(** One file of the CO series. *)
Definition one_file : list (csv_file * Z) :=
  [ (mk_file "data_co_1_3600.0.csv" (fun _ _ => 3), 3600%Z) ].

(** A directory with a late file (90000 s rounds to 90000 > 86400). *)
Definition sample_files : list csv_file :=
  [ mk_file "out/data/data_co_1_3600.0.csv" (fun _ _ => 3);
    mk_file "out/data/data_co_1_90000.0.csv" (fun _ _ => 9);
    mk_file "out/data/data_nox_1_7100.5.csv" (fun _ _ => 1) ].

(** Two snapshots, at 0 s and at 3600 s. *)
Definition two_snapshots : list (Z * grid) :=
  [ (0%Z, fun _ _ => 2); (3600%Z, fun _ _ => 4) ].

(** *** process_data_statistics *)

(** [s.split(sep)] for a one-character separator. *)
Fixpoint split (sep : ascii) (s : string) : list string :=
  match s with
  | EmptyString => [EmptyString]
  | String c rest =>
      if Ascii.eqb c sep then EmptyString :: split sep rest
      else match split sep rest with
           | [] => [String c EmptyString]
           | h :: t => String c h :: t
           end
  end.

(** [os.path.basename]: what follows the last ["/"]. *)
Definition basename (path : string) : string :=
  last (split "/" path) EmptyString.

(** The ASCII characters that [int()] and [str.strip()] take for blanks:
    the space, [\t] to [\r], and the separators 28 to 31. *)
Definition is_space (c : ascii) : bool :=
  let n := nat_of_ascii c in
  ((n =? 32) || ((9 <=? n) && (n <=? 13)) || ((28 <=? n) && (n <=? 31)))%nat.

(** A string of ASCII characters only. *)
Fixpoint is_ascii (s : string) : bool :=
  match s with
  | EmptyString => true
  | String c rest => (nat_of_ascii c <? 128)%nat && is_ascii rest
  end.

Fixpoint lstrip (s : string) : string :=
  match s with
  | String c rest => if is_space c then lstrip rest else s
  | EmptyString => EmptyString
  end.

Fixpoint rstrip (s : string) : string :=
  match s with
  | EmptyString => EmptyString
  | String c rest =>
      match rstrip rest with
      | EmptyString => if is_space c then EmptyString
                       else String c EmptyString
      | r => String c r
      end
  end.

Definition digit_of (c : ascii) : option Z :=
  let n := Z.of_nat (nat_of_ascii c) in
  if ((48 <=? n) && (n <=? 57))%Z then Some (n - 48)%Z else None.

Fixpoint digits (s : string) (acc : Z) : option Z :=
  match s with
  | EmptyString => Some acc
  | String c rest =>
      match digit_of c with
      | Some d => digits rest (10 * acc + d)%Z
      | None => None
      end
  end.

Definition unsigned (s : string) : option Z :=
  match s with
  | EmptyString => None
  | _ => digits s 0
  end.

(** [int(s)] for a string of ASCII characters without ["_"]: optional
    blanks around an optional sign and decimal digits; [None] is
    [ValueError].  (Python also accepts decimal digits outside ASCII and
    single underscores between digits; the fields parsed here come out of
    [split("_")], and the statements that depend on a [ValueError] are
    about ASCII names.) *)
Definition py_int (s : string) : option Z :=
  match rstrip (lstrip s) with
  | String "-" rest => option_map Z.opp (unsigned rest)
  | String "+" rest => unsigned rest
  | body => unsigned body
  end.

(** [round(q)]: to the nearest integer, ties to the even one. *)
Definition py_round (q : Q) : Z :=
  let f := Qfloor q in
  match Qcompare (q - inject_Z f) (1 # 2) with
  | Lt => f
  | Gt => (f + 1)%Z
  | Eq => if Z.even f then f else (f + 1)%Z
  end.

(** [round(timestamp / 3600) * 3600] *)
Definition round_to_hour (timestamp : Z) : Z :=
  (py_round (inject_Z timestamp / 3600) * 3600)%Z.

(** What one iteration of [for file in files] does. *)
Inductive action : Type :=
| Break                                   (* [break] *)
| Raise                                   (* uncaught [ValueError] *)
| Skip                                    (* [continue], or the warning *)
| Keep (data_key : string) (timestamp : Z).

(** The [try] block. *)
Definition keep_timestamp (data_key timestamp_str : string) : action :=
  match py_int timestamp_str with
  | Some timestamp =>
      let timestamp := round_to_hour timestamp in
      if ((timestamp <? 0) || (86400 <? timestamp))%Z then Skip
      else Keep data_key timestamp
  | None => Skip
  end.

Definition key_of (p0 p1 : string) : string :=
  (p0 ++ "_" ++ p1)%string.

Definition first_field (s : string) : string :=
  hd EmptyString (split "." s).

Definition file_action (file : csv_file) : action :=
  let filename := basename (file_path file) in
  match split "_" filename with
  | [p0; p1; p2] => keep_timestamp (key_of p0 p1) (first_field p2)
  | [p0; p1; p2; p3] =>
      match py_int p2 with
      | Some height =>
          if negb (height =? 1)%Z then Skip
          else keep_timestamp (key_of p0 p1) (first_field p3)
      | None => Raise
      end
  | _ => Break
  end.

(** The integer that the [try] block of an iteration parses from the file
    name, before rounding: defined when the name has three fields, or four
    with height 1, and the timestamp field is an integer. *)
Definition parsed_timestamp (file : csv_file) : option Z :=
  match split "_" (basename (file_path file)) with
  | [p0; p1; p2] => py_int (first_field p2)
  | [p0; p1; p2; p3] =>
      match py_int p2 with
      | Some height =>
          if negb (height =? 1)%Z then None else py_int (first_field p3)
      | None => None
      end
  | _ => None
  end.

(** The grouping loop; [None] is the uncaught exception. *)
Fixpoint group_files (files : list csv_file)
    (data_types : list (string * list (csv_file * Z)))
  : option (list (string * list (csv_file * Z))) :=
  match files with
  | [] => Some data_types
  | file :: rest =>
      match file_action file with
      | Break => Some data_types
      | Raise => None
      | Skip => group_files rest data_types
      | Keep data_key timestamp =>
          group_files rest (dict_append data_key (file, timestamp) data_types)
      end
  end.

(** [files] is what [glob] found for ["data_*_*.csv"]. *)
Definition process_data_statistics (files : list csv_file)
  : option (list output) :=
  match group_files files [] with
  | Some data_types =>
      collect (fun item => calculate_statistics (fst item) (snd item))
              data_types
  | None => None
  end.

(* ------------------------------------------------------------------ *)
(** ** emission_models.py: process_noise

    The noise model takes logarithms and powers of ten, so its numbers
    are real numbers. *)

Section NoiseModel.

Local Open Scope R_scope.

(** [np.log10] and [10 ** y] *)
Definition np_log10 (x : R) : R := ln x / ln 10.
Definition pow10 (y : R) : R := Rpower 10 y.

(** Division; [None] stands for a zero divisor, as in [div]. *)
Definition Rdiv_checked (a b : R) : option R :=
  if Req_dec_T b 0 then None else Some (a / b).

(** [int(r)]: towards zero. *)
Definition Rtruncate (r : R) : Z :=
  if Rle_dec 0 r then Int_part r else (- Int_part (- r))%Z.

(** [range(lo, hi)] *)
Definition range_from (lo hi : Z) : list Z :=
  map (fun n => (lo + Z.of_nat n)%Z) (seq 0 (Z.to_nat (hi - lo))).

Definition index2_eqb (a b : Z * Z) : bool :=
  ((fst a =? fst b) && (snd a =? snd b))%Z.

(** A 2D array of reals of shape [(GRID_DIM_X, GRID_DIM_Y)]. *)
Definition noise_grid : Type := Z * Z -> R.

(** The contribution of one source at distance [sqrt dist_squared_m]:
    [Lp = Lw - 10 * log10(4 * pi * max(d^2, 1))] in linear scale. *)
Definition linear_contribution (Lw dist_squared_m : R) : R :=
  let S := 4 * PI * Rmax dist_squared_m 1 in
  let Lp := Lw - 10 * np_log10 S in
  pow10 (Lp / 10).

(** The two inner loops over the bounding box of one source. *)
Definition add_source (linear_matrix : noise_grid) (x_idx y_idx : Z)
    (Lw cell_len_x_m cell_len_y_m radius : R)
    (x_min x_max y_min y_max : Z) : noise_grid :=
  fold_left
    (fun m xy =>
       let dx := IZR (fst xy - x_idx) * cell_len_x_m in
       let dy := IZR (snd xy - y_idx) * cell_len_y_m in
       let dist_squared_m := dx * dx + dy * dy in
       if Rlt_dec (radius * radius) dist_squared_m then m
       else upd index2_eqb m xy
              (m xy + linear_contribution Lw dist_squared_m))
    (loop2 (range_from x_min x_max) (range_from y_min y_max))
    linear_matrix.

(** One iteration of [for i in range(len(x_vec))], after the two
    statements that turn the position into the cell [(x_idx, y_idx)]. *)
Definition noise_source_at (cfg : config)
    (cell_len_x_m cell_len_y_m radius background_dB : R)
    (linear_matrix : noise_grid) (x_idx y_idx : Z) (noise : R)
  : option noise_grid :=
  let dim_x := Z.of_nat (GRID_DIM_X cfg) in
  let dim_y := Z.of_nat (GRID_DIM_Y cfg) in
  if negb ((0 <=? x_idx) && (x_idx <? dim_x)
           && ((0 <=? y_idx) && (y_idx <? dim_y)))%Z
  then Some linear_matrix
  else
    let Lw := Rmax noise background_dB in
    rx <- Rdiv_checked radius cell_len_x_m ;;
    ry <- Rdiv_checked radius cell_len_y_m ;;
    let x_min := Z.max 0 (x_idx - Rtruncate rx) in
    let x_max := Z.min dim_x (x_idx + Rtruncate rx + 1) in
    let y_min := Z.max 0 (y_idx - Rtruncate ry) in
    let y_max := Z.min dim_y (y_idx + Rtruncate ry + 1) in
    Some (add_source linear_matrix x_idx y_idx Lw cell_len_x_m cell_len_y_m
            radius x_min x_max y_min y_max).

(** One iteration of [for i in range(len(x_vec))]. *)
Definition noise_source (cfg : config) (cell_dim_x cell_dim_y : R)
    (cell_len_x_m cell_len_y_m radius background_dB : R)
    (linear_matrix : noise_grid) (source : R * R * R) : option noise_grid :=
  let x := fst (fst source) in
  let y := snd (fst source) in
  let noise := snd source in
  fx <- Rdiv_checked (x - IZR (GRID_LEFT cfg)) cell_dim_x ;;
  fy <- Rdiv_checked (y - IZR (GRID_BOTTOM cfg)) cell_dim_y ;;
  noise_source_at cfg cell_len_x_m cell_len_y_m radius background_dB
    linear_matrix (Rtruncate fx) (Rtruncate fy) noise.

Definition process_noise (cfg : config) (x_vec y_vec noise_vec : list R)
    (cell_len_x_m cell_len_y_m radius background_dB : R)
  : option noise_grid :=
  cell_dim_x <- Rdiv_checked (IZR (GRID_RIGHT cfg - GRID_LEFT cfg))
                  (IZR (Z.of_nat (GRID_DIM_X cfg))) ;;
  cell_dim_y <- Rdiv_checked (IZR (GRID_TOP cfg - GRID_BOTTOM cfg))
                  (IZR (Z.of_nat (GRID_DIM_Y cfg))) ;;
  let background_linear := pow10 (background_dB / 10) in
  linear_matrix <-
    fold_left
      (fun acc source =>
         m <- acc ;;
         noise_source cfg cell_dim_x cell_dim_y cell_len_x_m cell_len_y_m
           radius background_dB m source)
      (combine (combine x_vec y_vec) noise_vec)
      (Some (fun _ => background_linear)) ;;
  Some (fun xy => 10 * np_log10 (linear_matrix xy)).

(** The level that the code computes in the cell of a single source. *)
Definition level_at_source (source_level background_dB : R) : R :=
  10 * np_log10
         (pow10 (background_dB / 10)
          + pow10 ((Rmax source_level background_dB
                    - 10 * np_log10 (4 * PI * 1)) / 10)).

End NoiseModel.

(* ------------------------------------------------------------------ *)
(** ** process_gas_to_aqi.py: process_gas_to_aqi, the US maps *)

(** helper.py, [mg_per_m3_to_ppm]:
    [(mg_per_m3 * molar_volume) / molecular_weight]. *)
Definition mg_per_m3_to_ppm (molecular_weight mg_per_m3 : Q) : option Q :=
  div (mg_per_m3 * 24.45) molecular_weight.

(** The keys of [pollutant_config], in the order of the dictionary. *)
Inductive gas : Type := co | nox | pmx.

Definition gases : list gas := [co; nox; pmx].

Definition gas_name (g : gas) : string :=
  match g with
  | co => "co"
  | nox => "nox"
  | pmx => "pmx"
  end.

(** [config['conversion_factor_us_AQI']] *)
Definition conversion_factor_us_AQI (g : gas) : option Q :=
  match g with
  | co => mg_per_m3_to_ppm 28.01 1
  | nox => ppm <- mg_per_m3_to_ppm 46.01 1 ;; Some (ppm * 1000)
  | pmx => Some 1000
  end.

(** ['CO' if pollutant == 'co' else 'NO2' if pollutant == 'nox'
    else 'PM2.5'] *)
Definition pollutant_type (g : gas) : pollutant :=
  match g with
  | co => CO
  | nox => NO2
  | pmx => PM25
  end.

(** The two loops over the cells of one window file. *)
Definition aqi_array_US (factor : Q) (g : gas) (data : grid) : grid :=
  fun x_ y_ =>
    let concentration := data x_ y_ * factor in
    calculate_aqi_for_pollutant_US_AQI concentration (pollutant_type g).

(** [for file_path in files: ... max_aqi = np.maximum(max_aqi, aqi_array)] *)
Definition max_aqi_US (factor : Q) (g : gas) (files : list csv_file) : grid :=
  fold_left
    (fun max_aqi file =>
       np_maximum max_aqi (aqi_array_US factor g (file_values file)))
    files np_zeros.

(** One iteration of [for pollutant, config in pollutant_config.items()]:
    the entry added to [all_aqi_data_US], none after [continue].  [found]
    is what [glob] returns for the pattern of the pollutant. *)
Definition pollutant_aqi_US (found : gas -> list csv_file) (g : gas)
  : option (list (gas * grid)) :=
  factor <- conversion_factor_us_AQI g ;;
  match found g with
  | [] => Some []
  | files => Some [(g, max_aqi_US factor g files)]
  end.

Fixpoint all_aqi_data_US (found : gas -> list csv_file) (l : list gas)
  : option (list (gas * grid)) :=
  match l with
  | [] => Some []
  | g :: rest =>
      entry <- pollutant_aqi_US found g ;;
      entries <- all_aqi_data_US found rest ;;
      Some (entry ++ entries)
  end.

(** [max(aqi_values)] of a non-empty list. *)
Definition py_max (first : Q) (rest : list Q) : Q :=
  fold_left (fun m v => if Qlt_bool m v then v else m) rest first.

(** [max(aqi_values) if aqi_values else 0] over the pollutants present. *)
Definition overall_aqi (all_aqi_data : list (gas * grid)) : grid :=
  fun x_ y_ =>
    match map (fun entry => snd entry x_ y_) all_aqi_data with
    | [] => 0
    | v :: rest => py_max v rest
    end.

(** The files saved by the US part, by name: one map for each pollutant
    with window files, then the overall map when there is any. *)
Definition process_gas_to_aqi_US (found : gas -> list csv_file)
  : option (list (string * grid)) :=
  all <- all_aqi_data_US found gases ;;
  Some (map (fun entry =>
               ((gas_name (fst entry) ++ "_max_aqi.csv")%string, snd entry))
            all
        ++ match all with
           | [] => []
           | _ => [("overall_max_aqi.csv"%string, overall_aqi all)]
           end).

(** Window files for the examples: carbon monoxide only. *)
Definition co_windows (g : gas) : list csv_file :=
  match g with
  | co => [ mk_file "avg/data_co_8h_avg_from_hour0.csv" (fun _ _ => 5);
            mk_file "avg/data_co_8h_avg_from_hour1.csv" (fun _ _ => 11) ]
  | _ => []
  end.

(* ------------------------------------------------------------------ *)
(** ** run_sim.py: the noise exposure counters *)

Section NoiseExposure.

Local Open Scope Z_scope.

(** A value stored in an [np.int32] array. *)
Definition wrap_int32 (z : Z) : Z := (z + 2 ^ 31) mod 2 ^ 32 - 2 ^ 31.

Definition exposure : Type := Z * Z -> Z.

Definition NOISE_THRESHOLD_LOW : R := 40%R.
Definition NOISE_THRESHOLD_MID : R := 50%R.
Definition NOISE_THRESHOLD_HIGH : R := 60%R.
Definition NOISE_THERESHOLD_VERY_HIGH : R := 70%R.

(** [(current_noise_grid >= threshold).astype(np.int32)] *)
Definition at_least (current_noise_grid : noise_grid) (threshold : R)
  : exposure :=
  fun c => if Rle_dec threshold (current_noise_grid c) then 1 else 0.

(** [+=] on [np.int32] arrays *)
Definition add_int32 (a b : exposure) : exposure :=
  fun c => wrap_int32 (a c + b c).

Record noise_counters : Type := mk_counters {
  noise_exposure_low : exposure;
  noise_exposure_mid : exposure;
  noise_exposure_high : exposure;
  noise_exposure_very_high : exposure
}.

(** [np.zeros((GRID_DIM_X, GRID_DIM_Y), dtype=np.int32)], four times *)
Definition initial_counters : noise_counters :=
  mk_counters (fun _ => 0) (fun _ => 0) (fun _ => 0) (fun _ => 0).

(** The body of [if next_noise_update <= curr_time], after the noise grid
    of the second is known. *)
Definition count_exposure (s : noise_counters)
    (current_noise_grid : noise_grid) : noise_counters :=
  mk_counters
    (add_int32 (noise_exposure_low s)
               (at_least current_noise_grid NOISE_THRESHOLD_LOW))
    (add_int32 (noise_exposure_mid s)
               (at_least current_noise_grid NOISE_THRESHOLD_MID))
    (add_int32 (noise_exposure_high s)
               (at_least current_noise_grid NOISE_THRESHOLD_HIGH))
    (add_int32 (noise_exposure_very_high s)
               (at_least current_noise_grid NOISE_THERESHOLD_VERY_HIGH)).

(** The counters after the noise updates of a run, one grid per update. *)
Definition count_exposures (noise_grids : list noise_grid) : noise_counters :=
  fold_left count_exposure noise_grids initial_counters.

End NoiseExposure.

(** Two seconds of noise for the examples: 45 dB, then 65 dB, everywhere. *)
Definition two_seconds : list noise_grid :=
  [ (fun _ => 45%R); (fun _ => 65%R) ].

(* ================================================================== *)
(** * Part I, continued: the rounding-sensitive steps in binary64

    Where a property depends on how a float is rounded, on an overflow
    or on NaN, the functions are embedded again over the primitive
    binary64 numbers, with the operations of IEEE 754 that Python and
    numpy use: the choice of the time step, the overall statistics, the
    diffusion step and the conversion of a position into a cell. *)
(* ================================================================== *)

Module B64.

Local Open Scope float_scope.

(** A Python [int] used in float arithmetic: rounded to nearest, ties to
    even (an integer beyond the largest float makes Python raise
    [OverflowError]; here it becomes an infinity). *)
Definition of_int (z : Z) : float :=
  SF2Prim (binary_normalize prec emax z 0 false).

(** [int(x)]: towards zero; [None] is the [ValueError] for NaN or the
    [OverflowError] for an infinity. *)
Definition to_int (x : float) : option Z :=
  match Prim2SF x with
  | S754_zero _ => Some 0%Z
  | S754_finite s m e => Some (cond_Zopp s (Z.shiftl (Zpos m) e))
  | S754_infinity _ | S754_nan => None
  end.

(** [math.ceil(x)], with the same exceptions. *)
Definition ceil (x : float) : option Z :=
  match Prim2SF x with
  | S754_zero _ => Some 0%Z
  | S754_finite s m e =>
      let t := Z.shiftl (Zpos m) e in
      if s then Some (- t)%Z
      else if (Z.shiftl t (- e) =? Zpos m)%Z then Some t
           else Some (t + 1)%Z
  | S754_infinity _ | S754_nan => None
  end.

(** [a / b] on Python floats; [None] is [ZeroDivisionError]. *)
Definition div (a b : float) : option float :=
  if b =? 0 then None else Some (a / b).

(** [x] holds a number. *)
Definition is_number (x : float) : bool := negb (is_nan x).

(** [x <= y] on the specification of two floats: comparable, and not
    greater. *)
Definition SFle (x y : spec_float) : Prop :=
  SFcompare x y = Some Lt \/ SFcompare x y = Some Eq.

(** *** emission_models.py: calculate_optimal_dt *)

Definition calculate_optimal_dt
    (cell_len_x_m cell_len_y_m cell_len_z_m diffusion loss_rate
     safety_factor : float) : option float :=
  diff_x <- div diffusion (cell_len_x_m * cell_len_x_m) ;;
  diff_y <- div diffusion (cell_len_y_m * cell_len_y_m) ;;
  diff_z <- div diffusion (cell_len_z_m * cell_len_z_m) ;;
  max_stable_dt <- div 2 (loss_rate + 4 * (diff_x + diff_y + diff_z)) ;;
  Some (max_stable_dt * safety_factor).

(** *** run_sim.py, lines 149-153 *)

(** [n = math.ceil(1/dt)] *)
Definition substeps (dt : float) : option Z :=
  inv <- div 1 dt ;;
  ceil inv.

(** [dt = 1/n] and [dt = min(dt, 1)].  [1/n] divides two integers: the
    quotient is rounded once, and [n], the ceiling of a float, is a float
    itself.  [min(dt, 1)] is [1] when [1 < dt] and [dt] otherwise. *)
Definition fit_dt_to_second (dt : float) : option float :=
  n <- substeps dt ;;
  if (n =? 0)%Z then None
  else
    let dt := of_int 1 / of_int n in
    Some (if 1 <? dt then 1 else dt).

(** *** process_data.py: the overall statistics of calculate_statistics *)

Definition grid : Type := nat -> nat -> float.

Record csv_file : Type := mk_file {
  file_path : string;
  file_values : grid
}.

Definition np_zeros : grid := fun _ _ => 0.
Definition np_full_inf : grid := fun _ _ => infinity.

(** numpy's [maximum] and [minimum] keep the first argument when it is NaN
    or wins the comparison, and take the second otherwise. *)
Definition np_maximum (a b : grid) : grid :=
  fun x y => if (b x y <=? a x y) || is_nan (a x y) then a x y else b x y.

Definition np_minimum (a b : grid) : grid :=
  fun x y => if (a x y <=? b x y) || is_nan (a x y) then a x y else b x y.

Record statistics : Type := mk_statistics {
  max_array : grid;
  min_array : grid;
  sum_array : grid
}.

(** One iteration of [for file, timestamp in file_data], without the
    dictionary of snapshots. *)
Definition accumulate (s : statistics) (entry : csv_file * Z) : statistics :=
  let current_array := file_values (fst entry) in
  mk_statistics
    (np_maximum (max_array s) current_array)
    (np_minimum (min_array s) current_array)
    (fun x y => sum_array s x y + current_array x y).

Definition initial_statistics : statistics :=
  mk_statistics np_zeros np_full_inf np_zeros.

(** The files are read in the order of [file_data.sort(key=...)]. *)
Definition accumulate_all (file_data : list (csv_file * Z)) : statistics :=
  fold_left accumulate (sort_by snd file_data) initial_statistics.

Definition overall_max (file_data : list (csv_file * Z)) : grid :=
  max_array (accumulate_all file_data).

(** [min_array[np.isinf(min_array)] = 0] *)
Definition overall_min (file_data : list (csv_file * Z)) : grid :=
  fun x y =>
    let v := min_array (accumulate_all file_data) x y in
    if is_infinity v then 0 else v.

(** [sum_array / file_count if file_count > 0 else sum_array] *)
Definition overall_avg (file_data : list (csv_file * Z)) : grid :=
  let file_count := List.length file_data in
  if (0 <? file_count)%nat
  then fun x y =>
         sum_array (accumulate_all file_data) x y
         / of_int (Z.of_nat file_count)
  else sum_array (accumulate_all file_data).

Definition overall_diff (file_data : list (csv_file * Z)) : grid :=
  fun x y => overall_max file_data x y - overall_min file_data x y.



(** *** emission_models.py: the diffusion step

    The arrays are those of the diffusion step above, with binary64
    cells. *)

Record array3 : Type := mk_array3 {
  shape : nat * nat * nat;
  cells : index3 -> float
}.

Definition get3 (a : array3) (i j k : Z) : float := cells a (i, (j, k)).

Definition set3 (a : array3) (i j k : Z) (v : float) : array3 :=
  mk_array3 (shape a) (upd index3_eqb (cells a) (i, (j, k)) v).

Definition full (sh : nat * nat * nat) (v : float) : array3 :=
  mk_array3 sh (fun _ => v).


(** [_add_emissions]: [old_matrix[x_idx, y_idx, 0] += emissions[i]] for
    the entries inside the grid, in order. *)
Definition _add_emissions (old_matrix : array3) (x_indices y_indices : list Z)
    (emissions : list float) (grid_dim_x grid_dim_y : Z) : array3 :=
  fold_left
    (fun m entry =>
       let x_idx := fst (fst entry) in
       let y_idx := snd (fst entry) in
       if ((0 <=? x_idx) && (x_idx <? grid_dim_x)
           && ((0 <=? y_idx) && (y_idx <? grid_dim_y)))%Z
       then set3 m x_idx y_idx 0 (get3 m x_idx y_idx 0 + snd entry)
       else m)
    (combine (combine x_indices y_indices) emissions)
    old_matrix.










(** *** emission_models.py: process_noise, from positions to cells

    The positions are binary64 numbers and the cell of a source is found
    with the arithmetic of the code; the levels are real numbers, as in
    the noise model above. *)

(** The integers of [config.py] that take part in float arithmetic are
    floats themselves. *)
Definition grid_fits (cfg : config) : Prop :=
  (Z.abs (GRID_LEFT cfg) <= 2 ^ 53 /\
   Z.abs (GRID_BOTTOM cfg) <= 2 ^ 53 /\
   Z.abs (GRID_RIGHT cfg - GRID_LEFT cfg) <= 2 ^ 53 /\
   Z.abs (GRID_TOP cfg - GRID_BOTTOM cfg) <= 2 ^ 53 /\
   Z.of_nat (GRID_DIM_X cfg) <= 2 ^ 53 /\
   Z.of_nat (GRID_DIM_Y cfg) <= 2 ^ 53)%Z.

(** [(GRID_RIGHT - GRID_LEFT) / GRID_DIM_X]: a division of integers. *)
Definition cell_dim (lo hi : Z) (n : nat) : option float :=
  div (of_int (hi - lo)) (of_int (Z.of_nat n)).

(** [int((v - origin) / cell_dim)] *)
Definition cell_index (v : float) (origin : Z) (cell_dim : float)
  : option Z :=
  q <- div (v - of_int origin) cell_dim ;;
  to_int q.

(** One iteration of [for i in range(len(x_vec))]. *)
Definition noise_source (cfg : config) (cell_dim_x cell_dim_y : float)
    (cell_len_x_m cell_len_y_m radius background_dB : R)
    (linear_matrix : noise_grid) (source : float * float * R)
  : option noise_grid :=
  let x := fst (fst source) in
  let y := snd (fst source) in
  let noise := snd source in
  x_idx <- cell_index x (GRID_LEFT cfg) cell_dim_x ;;
  y_idx <- cell_index y (GRID_BOTTOM cfg) cell_dim_y ;;
  noise_source_at cfg cell_len_x_m cell_len_y_m radius background_dB
    linear_matrix x_idx y_idx noise.

Definition process_noise (cfg : config) (x_vec y_vec : list float)
    (noise_vec : list R)
    (cell_len_x_m cell_len_y_m radius background_dB : R)
  : option noise_grid :=
  cell_dim_x <- cell_dim (GRID_LEFT cfg) (GRID_RIGHT cfg) (GRID_DIM_X cfg) ;;
  cell_dim_y <- cell_dim (GRID_BOTTOM cfg) (GRID_TOP cfg) (GRID_DIM_Y cfg) ;;
  let background_linear := pow10 (background_dB / 10)%R in
  linear_matrix <-
    fold_left
      (fun acc source =>
         m <- acc ;;
         noise_source cfg cell_dim_x cell_dim_y cell_len_x_m cell_len_y_m
           radius background_dB m source)
      (combine (combine x_vec y_vec) noise_vec)
      (Some (fun _ => background_linear)) ;;
  Some (fun xy => (10 * np_log10 (linear_matrix xy))%R).

End B64.
(* ================================================================== *)
(** * Part II: properties *)
(* ================================================================== *)

Section Comparisons.

Lemma Qlt_bool_iff (a b : Q) : Qlt_bool a b = true <-> a < b.
Proof.
  unfold Qlt_bool. rewrite negb_true_iff.
  split; intro H.
  - apply Qnot_le_lt. intro Hle. apply Qle_bool_iff in Hle. congruence.
  - destruct (Qle_bool b a) eqn:E; [|reflexivity].
    apply Qle_bool_iff in E. exfalso. apply (Qlt_not_le _ _ H E).
Qed.

Lemma Qlt_bool_false (a b : Q) : Qlt_bool a b = false <-> b <= a.
Proof.
  unfold Qlt_bool. rewrite negb_false_iff. apply Qle_bool_iff.
Qed.

Lemma Qle_bool_false (a b : Q) : Qle_bool a b = false <-> b < a.
Proof.
  rewrite <- Qlt_bool_iff. unfold Qlt_bool.
  destruct (Qle_bool a b); simpl; split; congruence.
Qed.

End Comparisons.

Section AirQualityIndex.

(** A concentration that no row accepts falls through the loop. *)
Lemma scan_US_AQI_none (bps : list breakpoint) (c : Q) :
  Forall (fun bp => c < conc_low bp \/ conc_high bp < c) bps ->
  scan_US_AQI bps c = None.
Proof.
  induction 1 as [|bp rest Hbp _ IH]; simpl; [reflexivity|].
  destruct Hbp as [Hlo|Hhi].
  - apply Qle_bool_false in Hlo. now rewrite Hlo.
  - apply Qle_bool_false in Hhi. now rewrite Hhi, andb_false_r.
Qed.

(** C7: for each of the three US tables, a concentration equal to the
    upper bound of a row yields that row's [index_high]. *)
Theorem US_AQI_upper_bound_yields_index_high (p : pollutant) (bp : breakpoint) :
  In bp (breakpoints_US_AQI p) ->
  calculate_aqi_for_pollutant_US_AQI (conc_high bp) p == index_high bp.
Proof.
  intro H.
  destruct p; simpl in H;
    repeat (destruct H as [<-|H]; [vm_compute; reflexivity|]);
    contradiction.
Qed.

(** The instance of the claim: CO at exactly 4.4 ppm gives AQI 50. *)
Lemma US_AQI_CO_4_4_is_50 :
  calculate_aqi_for_pollutant_US_AQI 4.4 CO == 50.
Proof.
  apply (US_AQI_upper_bound_yields_index_high CO (mk_bp 0 4.4 0 50)).
  simpl. left. reflexivity.
Defined.



(** Rows whose upper bound the concentration has reached are skipped. *)
Lemma scan_AQIH_skip (bp : breakpoint_AQIH) (rest : list breakpoint_AQIH)
    (h c : Q) :
  h_conc_high bp = Fin h -> h <= c ->
  scan_AQIH (bp :: rest) c = scan_AQIH rest c.
Proof.
  intros Hh Hle. cbn [scan_AQIH]. rewrite Hh. cbn [lt_bound].
  apply Qlt_bool_false in Hle. now rewrite Hle, andb_false_r.
Qed.

(** The open-ended row accepts every finite concentration from its lower
    bound on, and interpolates with slope [1/inf = 0]. *)
Lemma scan_AQIH_open (bp : breakpoint_AQIH) (rest : list breakpoint_AQIH)
    (c : Q) :
  h_conc_high bp = PInf -> h_conc_low bp <= c ->
  scan_AQIH (bp :: rest) c
  = Some (0 * (c - h_conc_low bp) + h_index_low bp).
Proof.
  intros Hh Hle. cbn [scan_AQIH]. rewrite Hh. cbn [lt_bound].
  apply Qle_bool_iff in Hle. rewrite Hle. cbn [andb].
  unfold interpolate_AQIH, slope_AQIH. now rewrite Hh.
Qed.

(** C1 (what the code does): for NO2 and for PM2.5, every concentration
    from the lower bound of the last, open-ended row on (600, resp. 142)
    yields index 9: the row [[600, inf, 9, 10]] matches and its slope is 0,
    so the final [return 10] is not reached. *)
Theorem AQIH_open_tier_yields_9
    (p : pollutant) (bps : list breakpoint_AQIH) (c : Q) :
  breakpoints_AQIH p = Some bps ->
  h_conc_low (last bps (mk_bph 0 PInf 0 0)) <= c ->
  returns (calculate_aqi_for_pollutant_AQIH c p) 9.
Proof.
  intros Hp Hc. unfold calculate_aqi_for_pollutant_AQIH. rewrite Hp.
  destruct p; cbn [breakpoints_AQIH] in Hp; [discriminate| |];
    injection Hp as <-; cbn [last h_conc_low] in Hc;
    (assert (Hneg : Qlt_bool c 0 = false) by (apply Qlt_bool_false; lra));
    rewrite Hneg;
    repeat (erewrite scan_AQIH_skip; [ | reflexivity | lra ]);
    (rewrite scan_AQIH_open; [ | reflexivity | cbn [h_conc_low]; lra ]);
    cbn [returns h_conc_low h_index_low]; lra.
Qed.

(** NO2 at 700 ug/m3: the converter returns 9. *)
Lemma AQIH_NO2_700_is_9 :
  returns (calculate_aqi_for_pollutant_AQIH 700 NO2) 9.
Proof.
  apply (AQIH_open_tier_yields_9 NO2 _ 700 eq_refl).
  cbn [last h_conc_low breakpoints_AQIH]. unfold Qle. simpl. lia.
Defined.

(** Exactly at the lower bound of the open row the index is 9 as well. *)
Lemma AQIH_at_600_and_142 :
  returns (calculate_aqi_for_pollutant_AQIH 600 NO2) 9 /\
  returns (calculate_aqi_for_pollutant_AQIH 142 PM25) 9.
Proof. split; vm_compute; reflexivity. Qed.

(** The saturation value 10 is not what the code returns above the lower
    bound of the open row. *)
Lemma AQIH_above_open_bound_not_10 :
  ~ returns (calculate_aqi_for_pollutant_AQIH 700 NO2) 10 /\
  ~ returns (calculate_aqi_for_pollutant_AQIH 143 PM25) 10.
Proof. split; vm_compute; discriminate. Qed.

End AirQualityIndex.

Section Timestep.

Lemma div_nonzero (a b : Q) : ~ b == 0 -> div a b = Some (a / b).
Proof.
  intro Hb. unfold div.
  destruct (Qeq_bool b 0) eqn:E; [|reflexivity].
  apply Qeq_bool_iff in E. contradiction.
Qed.

Lemma Qinv_pos (a : Q) : 0 < a -> 0 < / a.
Proof. apply Qinv_lt_0_compat. Qed.

(** [1/n <= b] says [1 <= b * n]. *)
Lemma inv_le_iff (n : Z) (b : Q) :
  (0 < n)%Z -> (1 / inject_Z n <= b <-> 1 <= b * inject_Z n).
Proof.
  intro Hn.
  assert (Hq : 0 < inject_Z n).
  { change 0 with (inject_Z 0). rewrite <- Zlt_Qlt. exact Hn. }
  split; intro H.
  - apply Qmult_le_r with (z := / inject_Z n); [now apply Qinv_pos|].
    rewrite <- Qmult_assoc, Qmult_inv_r by lra.
    unfold Qdiv in H. lra.
  - apply Qmult_le_r with (z := inject_Z n); [exact Hq|].
    unfold Qdiv. rewrite <- Qmult_assoc, (Qmult_comm (/ _)), Qmult_inv_r by lra.
    lra.
Qed.

(** The driver's rounding of a positive step to a unit fraction. *)
Lemma fit_dt_to_second_spec (dt : Q) :
  0 < dt ->
  exists n : Z,
    (0 < n)%Z /\
    n = Qceiling (1 / dt) /\
    1 / inject_Z n <= dt /\
    (forall m : Z, (0 < m)%Z -> 1 / inject_Z m <= dt -> (n <= m)%Z) /\
    exists dt', fit_dt_to_second dt = Some dt' /\
                dt' == 1 / inject_Z n /\ dt' <= 1.
Proof.
  intro Hdt.
  set (n := Qceiling (1 / dt)).
  assert (Hinv : 0 < 1 / dt).
  { unfold Qdiv. rewrite Qmult_1_l. now apply Qinv_pos. }
  assert (Hceil : 1 / dt <= inject_Z n) by apply Qle_ceiling.
  assert (Hn : (0 < n)%Z).
  { rewrite Zlt_Qlt. change (inject_Z 0) with 0. lra. }
  assert (Hnq : 0 < inject_Z n).
  { change 0 with (inject_Z 0). now rewrite <- Zlt_Qlt. }
  assert (Hmul : 1 <= dt * inject_Z n).
  { apply Qmult_le_l with (z := dt) in Hceil; [|exact Hdt].
    unfold Qdiv in Hceil.
    rewrite Qmult_1_l, Qmult_inv_r in Hceil by lra. exact Hceil. }
  exists n. split; [exact Hn|]. split; [reflexivity|].
  split; [now apply inv_le_iff|].
  split.
  - intros m Hm Hle. apply inv_le_iff in Hle; [|exact Hm].
    assert (Hm' : 1 / dt <= inject_Z m).
    { apply Qmult_le_l with (z := dt); [exact Hdt|].
      unfold Qdiv. rewrite Qmult_1_l, Qmult_inv_r by lra. exact Hle. }
    unfold n. destruct (Z_lt_le_dec m (Qceiling (1 / dt))) as [Hlt|]; [|assumption].
    exfalso.
    pose proof (Qceiling_lt (1 / dt)) as Hc.
    assert (Hm1 : inject_Z m <= inject_Z (Qceiling (1 / dt) - 1)).
    { rewrite <- Zle_Qle. lia. }
    lra.
  - assert (Hone : 1 / inject_Z n <= 1).
    { apply inv_le_iff; [exact Hn|].
      rewrite Qmult_1_l. change 1 with (inject_Z 1). rewrite <- Zle_Qle. lia. }
    unfold fit_dt_to_second.
    rewrite (div_nonzero 1 dt) by lra. cbn [bind]. fold n.
    rewrite (div_nonzero 1 (inject_Z n)) by lra. cbn [bind].
    eexists. split; [reflexivity|].
    split; [apply Q.min_l; exact Hone | apply Q.le_min_r].
Qed.


End Timestep.

Section AggregatorExamples.

Example split_example :
  split "_" "data_co_1_3600.0.csv"
  = ["data"; "co"; "1"; "3600.0.csv"]%string.
Proof. reflexivity. Qed.

Example file_action_example :
  file_action (mk_file "../out/data/data_co_1_5400.0.csv" np_zeros)
  = Keep "data_co" 7200.
Proof. reflexivity. Qed.

Example file_action_noise :
  file_action (mk_file "data_noise_3600.0.csv" np_zeros)
  = Keep "data_noise" 3600.
Proof. reflexivity. Qed.

Example file_action_height :
  file_action (mk_file "data_co_2_3600.csv" np_zeros) = Skip.
Proof. reflexivity. Qed.

Example file_action_late :
  file_action (mk_file "data_co_1_88201.csv" np_zeros) = Skip.
Proof. reflexivity. Qed.

Example round_half_even :
  round_to_hour 1800 = 0%Z /\ round_to_hour 5400 = 7200%Z.
Proof. split; reflexivity. Qed.

End AggregatorExamples.

Section Sorting.

Context {A : Type} (key : A -> Z).

Lemma insert_sorted_length (x : A) (l : list A) :
  List.length (insert_sorted key x l) = S (List.length l).
Proof.
  induction l as [|y rest IH]; cbn [insert_sorted]; [reflexivity|].
  destruct (key x <=? key y)%Z; cbn [List.length]; [reflexivity|].
  now rewrite IH.
Qed.

Lemma sort_by_length (l : list A) :
  List.length (sort_by key l) = List.length l.
Proof.
  induction l as [|x rest IH]; cbn [sort_by]; [reflexivity|].
  rewrite insert_sorted_length, IH. reflexivity.
Qed.

Lemma In_insert_sorted (a x : A) (l : list A) :
  In a (insert_sorted key x l) <-> a = x \/ In a l.
Proof.
  induction l as [|y rest IH]; cbn [insert_sorted].
  - simpl. intuition.
  - destruct (key x <=? key y)%Z; simpl; [intuition|].
    rewrite IH. simpl. intuition.
Qed.

Lemma In_sort_by (a : A) (l : list A) :
  In a (sort_by key l) <-> In a l.
Proof.
  induction l as [|x rest IH]; cbn [sort_by]; [reflexivity|].
  rewrite In_insert_sorted, IH. simpl. intuition.
Qed.

End Sorting.


Section MovingAverages.

Lemma dict_get_keys {V : Type} (k : Z) (d : list (Z * V)) :
  In k (dict_keys d) -> exists v, dict_get Z.eqb k d = Some v.
Proof.
  induction d as [|[k' v'] rest IH]; cbn [dict_keys map In dict_get fst].
  - contradiction.
  - intros [->|H].
    + rewrite Z.eqb_refl. eauto.
    + destruct (k =? k')%Z; eauto.
Qed.

Lemma snapshot_at_get (d : list (Z * grid)) (t : Z) :
  In t (dict_keys d) -> dict_get Z.eqb t d = Some (snapshot_at d t).
Proof.
  intro H. destruct (dict_get_keys t d H) as [v Hv].
  unfold snapshot_at. now rewrite Hv.
Qed.

(** On timestamps that are keys the summation loop does not raise: it
    adds the snapshots up from left to right and counts them. *)
Lemma sum_window_from (d : list (Z * grid)) (wts : list Z)
    (s0 : grid) (c0 : nat) :
  (forall t, In t wts -> In t (dict_keys d)) ->
  fold_left
    (fun acc t =>
       match acc, dict_get Z.eqb t d with
       | Some (window_sum, count), Some g =>
           Some (grid_add window_sum g, S count)
       | _, _ => None
       end)
    wts (Some (s0, c0))
  = Some (fold_left (fun s t => grid_add s (snapshot_at d t)) wts s0,
          (c0 + List.length wts)%nat).
Proof.
  revert s0 c0. induction wts as [|t rest IH]; intros s0 c0 Hin;
    cbn [fold_left List.length].
  - now rewrite Nat.add_0_r.
  - rewrite (snapshot_at_get d t) by (apply Hin; now left).
    rewrite IH by (intros; apply Hin; now right).
    now rewrite Nat.add_succ_r.
Qed.

Lemma sum_window_keys (d : list (Z * grid)) (wts : list Z) :
  (forall t, In t wts -> In t (dict_keys d)) ->
  sum_window d wts
  = Some (fold_left (fun s t => grid_add s (snapshot_at d t)) wts np_zeros,
          List.length wts).
Proof.
  intro H. unfold sum_window. now rewrite sum_window_from.
Qed.




Lemma insert_sorted_perm {A : Type} (key : A -> Z) (x : A) (l : list A) :
  Permutation (insert_sorted key x l) (x :: l).
Proof.
  induction l as [|y rest IH]; cbn [insert_sorted].
  - apply Permutation_refl.
  - destruct (key x <=? key y)%Z; [apply Permutation_refl|].
    eapply perm_trans; [apply perm_skip, IH | apply perm_swap].
Qed.

Lemma sort_by_perm {A : Type} (key : A -> Z) (l : list A) :
  Permutation (sort_by key l) l.
Proof.
  induction l as [|x rest IH]; cbn [sort_by]; [constructor|].
  eapply perm_trans; [apply insert_sorted_perm | now constructor].
Qed.










Example two_snapshots_files :
  option_map (map out_stat)
    (calculate_moving_averages "data_co" two_snapshots)
  = Some [ stat_window "1h" "hour" 0; stat_window "1h" "hour" 1 ].
Proof. reflexivity. Qed.


End MovingAverages.

Section OverallStatistics.

Example one_file_statistics :
  overall_max one_file 0%nat 0%nat == 3 /\
  overall_min one_file 0%nat 0%nat == 3 /\
  overall_avg one_file 0%nat 0%nat == 3 /\
  overall_diff one_file 0%nat 0%nat == 0.
Proof. repeat split. Qed.

End OverallStatistics.

Section FileGrouping.







(** A skipped file leaves the grouping as if it were not there. *)
Lemma group_files_skip (pre post : list csv_file) (file : csv_file)
    (data_types : list (string * list (csv_file * Z))) :
  file_action file = Skip ->
  group_files (pre ++ file :: post) data_types
  = group_files (pre ++ post) data_types.
Proof.
  intro Hskip. revert data_types.
  induction pre as [|f pre IH]; intro data_types; cbn [app group_files].
  - now rewrite Hskip.
  - destruct (file_action f); auto.
Qed.






(** The late CO file is dropped; CO and NOx are processed. *)
Example sample_files_run :
  option_map (map (fun o => (out_key o, out_stat o)))
    (process_data_statistics sample_files)
  = Some [ ("data_co", stat_max); ("data_co", stat_min);
           ("data_co", stat_avg); ("data_co", stat_diff);
           ("data_co", stat_window "1h" "hour" 1);
           ("data_nox", stat_max); ("data_nox", stat_min);
           ("data_nox", stat_avg); ("data_nox", stat_diff);
           ("data_nox", stat_window "1h" "hour" 2) ]%string.
Proof. reflexivity. Qed.

Example sample_files_late :
  parsed_timestamp (mk_file "out/data/data_co_1_90000.0.csv" (fun _ _ => 9))
  = Some 90000%Z /\
  round_to_hour 90000 = 90000%Z.
Proof. split; reflexivity. Qed.

End FileGrouping.

Section PointwiseLoops.

Context {K V : Type} (eqb : K -> K -> bool).
Hypothesis eqb_eq : forall a b, eqb a b = true <-> a = b.

Lemma upd_same (m : K -> V) (k : K) (v : V) : upd eqb m k v k = v.
Proof.
  unfold upd. now rewrite (proj2 (eqb_eq k k) eq_refl).
Qed.

Lemma upd_other (m : K -> V) (k k' : K) (v : V) :
  k' <> k -> upd eqb m k v k' = m k'.
Proof.
  intro Hne. unfold upd. destruct (eqb k' k) eqn:E; [|reflexivity].
  apply eqb_eq in E. contradiction.
Qed.



End PointwiseLoops.

Section LoopIndices.

Lemma NoDup_list_prod {A B : Type} (l1 : list A) (l2 : list B) :
  NoDup l1 -> NoDup l2 -> NoDup (list_prod l1 l2).
Proof.
  intros H1 H2. induction H1 as [|a l1 Hna _ IH]; cbn [list_prod];
    [constructor|].
  apply NoDup_app.
  - apply Finite.Injective_map_NoDup; [|exact H2].
    intros x y [= ->]. reflexivity.
  - exact IH.
  - intros [a' b] Hin1 Hin2.
    apply in_map_iff in Hin1 as (b' & [= <- <-] & _).
    apply in_prod_iff in Hin2 as [Hin2 _]. contradiction.
Qed.





Lemma index3_eqb_eq (a b : index3) : index3_eqb a b = true <-> a = b.
Proof.
  destruct a as [i [j k]], b as [i' [j' k']]. unfold index3_eqb.
  cbn [fst snd]. rewrite !andb_true_iff, !Z.eqb_eq.
  split; [intros (-> & -> & ->); reflexivity | intros [= -> -> ->]; auto].
Qed.

End LoopIndices.

Section DiffusionStep.

(** What [_add_emissions] leaves in a cell: the old mass, plus the sum of
    the emissions with the indices of the cell when the cell is in the
    layer [z = 0] and inside [[0, grid_dim_x) x [0, grid_dim_y)]. *)
Lemma add_emissions_from (entries : list (Z * Z * Q)) (m : array3)
    (gx gy i j k : Z) :
  get3
    (fold_left
       (fun m entry =>
          let x_idx := fst (fst entry) in
          let y_idx := snd (fst entry) in
          if ((0 <=? x_idx) && (x_idx <? gx)
              && ((0 <=? y_idx) && (y_idx <? gy)))%Z
          then set3 m x_idx y_idx 0 (get3 m x_idx y_idx 0 + snd entry)
          else m)
       entries m)
    i j k
  == get3 m i j k
     + (if ((0 <=? i) && (i <? gx) && ((0 <=? j) && (j <? gy))
            && (k =? 0))%Z
        then fold_right
               (fun entry acc =>
                  if ((fst (fst entry) =? i) && (snd (fst entry) =? j))%Z
                  then snd entry + acc else acc)
               0 entries
        else 0).
Proof.
  revert m. induction entries as [|[[x y] e] rest IH]; intro m;
    cbn [fold_left fold_right fst snd].
  - destruct (_ && _)%bool; lra.
  - rewrite IH. clear IH.
    set (inb := ((0 <=? i) && (i <? gx) && ((0 <=? j) && (j <? gy))
                 && (k =? 0))%Z%bool).
    set (tail := fold_right _ 0 rest).
    destruct ((0 <=? x) && (x <? gx) && ((0 <=? y) && (y <? gy)))%Z%bool
      eqn:Exy.
    + unfold set3, get3 at 1. cbn [cells]. unfold upd.
      destruct (index3_eqb (i, (j, k)) (x, (y, 0%Z))) eqn:Eidx.
      * apply index3_eqb_eq in Eidx. injection Eidx as -> -> ->.
        rewrite !Z.eqb_refl. cbn [andb].
        assert (Hin : inb = true).
        { unfold inb. now rewrite Exy. }
        rewrite Hin. unfold get3. lra.
      * assert (Hne : ((x =? i) && (y =? j))%Z%bool = true -> inb = false).
        { intro H. apply andb_true_iff in H as [H1 H2].
          apply Z.eqb_eq in H1, H2. subst x y.
          unfold inb. rewrite Exy. cbn [andb].
          destruct (Z.eqb_spec k 0) as [->|]; [|reflexivity].
          rewrite (proj2 (index3_eqb_eq _ _) eq_refl) in Eidx.
          discriminate. }
        destruct ((x =? i) && (y =? j))%Z%bool.
        -- rewrite (Hne eq_refl). unfold get3. lra.
        -- unfold get3. lra.
    + assert (Hne : ((x =? i) && (y =? j))%Z%bool = true -> inb = false).
      { intro H. apply andb_true_iff in H as [H1 H2].
        apply Z.eqb_eq in H1, H2. subst x y.
        unfold inb. now rewrite Exy. }
      destruct ((x =? i) && (y =? j))%Z%bool.
      * rewrite (Hne eq_refl). lra.
      * lra.
Qed.

(** A cell on which no source sits receives nothing. *)
Lemma injected_no_source (x_indices y_indices : list Z) (emissions : list Q)
    (i j : Z) :
  (forall x y e,
     In (x, y, e) (combine (combine x_indices y_indices) emissions) ->
     x <> i \/ y <> j) ->
  injected x_indices y_indices emissions i j = 0.
Proof.
  unfold injected.
  induction (combine (combine x_indices y_indices) emissions)
    as [|[[x y] e] rest IH]; intro H; cbn [fold_right fst snd];
    [reflexivity|].
  rewrite IH by (intros; eapply H; right; eassumption).
  destruct (H x y e (or_introl eq_refl)) as [Hne|Hne].
  - destruct (Z.eqb_spec x i); [contradiction | reflexivity].
  - destruct (Z.eqb_spec y j); [contradiction|].
    now rewrite andb_false_r.
Qed.

End DiffusionStep.

Section ConditionalLoops.

Context {K V : Type} (eqb : K -> K -> bool).
Hypothesis eqb_eq : forall a b, eqb a b = true <-> a = b.
Context (P : K -> Prop) (skip : forall k, {P k} + {~ P k}).
Context (g : K -> V -> V).

(** A loop that either skips the cell it visits or rewrites it. *)
Lemma fold_cond_upd_notin (l : list K) (m : K -> V) (k : K) :
  ~ In k l ->
  fold_left (fun m a => if skip a then m else upd eqb m a (g a (m a))) l m k
  = m k.
Proof.
  revert m. induction l as [|a rest IH]; intros m Hn; cbn [fold_left];
    [reflexivity|].
  rewrite IH by (intro; apply Hn; now right).
  destruct (skip a); [reflexivity|].
  apply (upd_other eqb eqb_eq). intros ->. apply Hn. now left.
Qed.

Lemma fold_cond_upd_in (l : list K) (m : K -> V) (k : K) :
  NoDup l -> In k l ->
  fold_left (fun m a => if skip a then m else upd eqb m a (g a (m a))) l m k
  = if skip k then m k else g k (m k).
Proof.
  revert m. induction l as [|a rest IH]; intros m Hnd Hin; [contradiction|].
  cbn [fold_left]. inversion Hnd as [|? ? Hna Hnd']; subst.
  destruct Hin as [->|Hin].
  - rewrite fold_cond_upd_notin by exact Hna.
    destruct (skip k); [reflexivity|]. apply (upd_same eqb eqb_eq).
  - rewrite IH by assumption.
    assert (Hne : k <> a) by (intros ->; contradiction).
    destruct (skip a); [reflexivity|].
    now rewrite (upd_other eqb eqb_eq m a k _ Hne).
Qed.

End ConditionalLoops.

Section NoiseField.

Local Open Scope R_scope.

Lemma Rdiv_checked_nonzero (a b : R) :
  b <> 0 -> Rdiv_checked a b = Some (a / b).
Proof.
  intro Hb. unfold Rdiv_checked.
  destruct (Req_dec_T b 0); [contradiction | reflexivity].
Qed.

Lemma Rtruncate_nonneg (r : R) : 0 <= r -> (0 <= Rtruncate r)%Z.
Proof.
  intro Hr. unfold Rtruncate. destruct (Rle_dec 0 r); [|contradiction].
  destruct (base_Int_part r) as [_ H].
  assert (Hlt : IZR (-1) < IZR (Int_part r)) by (simpl; lra).
  apply lt_IZR in Hlt. lia.
Qed.

Lemma In_range_from (lo hi i : Z) :
  In i (range_from lo hi) <-> (lo <= i < hi)%Z.
Proof.
  unfold range_from. rewrite in_map_iff. split.
  - intros (n & <- & Hn). apply in_seq in Hn. lia.
  - intro H. exists (Z.to_nat (i - lo)). split; [lia|]. apply in_seq. lia.
Qed.

Lemma NoDup_range_from (lo hi : Z) : NoDup (range_from lo hi).
Proof.
  unfold range_from. apply Finite.Injective_map_NoDup; [|apply seq_NoDup].
  intros x y H. lia.
Qed.

Lemma index2_eqb_eq (a b : Z * Z) : index2_eqb a b = true <-> a = b.
Proof.
  destruct a as [i j], b as [i' j']. unfold index2_eqb. cbn [fst snd].
  rewrite andb_true_iff, !Z.eqb_eq.
  split; [intros (-> & ->); reflexivity | intros [= -> ->]; auto].
Qed.

(** The cell of the source itself, when it lies in the bounding box,
    receives the contribution at distance 0 once. *)
Lemma add_source_at_source (m : noise_grid) (x_idx y_idx : Z)
    (Lw clx cly radius : R) (x_min x_max y_min y_max : Z) :
  (x_min <= x_idx < x_max)%Z -> (y_min <= y_idx < y_max)%Z ->
  add_source m x_idx y_idx Lw clx cly radius x_min x_max y_min y_max
    (x_idx, y_idx)
  = m (x_idx, y_idx) + linear_contribution Lw 0.
Proof.
  intros Hx Hy. unfold add_source.
  rewrite (fold_cond_upd_in index2_eqb index2_eqb_eq
             (fun xy =>
                radius * radius
                < IZR (fst xy - x_idx) * clx * (IZR (fst xy - x_idx) * clx)
                  + IZR (snd xy - y_idx) * cly * (IZR (snd xy - y_idx) * cly))
             (fun xy =>
                Rlt_dec (radius * radius)
                  (IZR (fst xy - x_idx) * clx * (IZR (fst xy - x_idx) * clx)
                   + IZR (snd xy - y_idx) * cly
                     * (IZR (snd xy - y_idx) * cly)))
             (fun xy v =>
                v + linear_contribution Lw
                      (IZR (fst xy - x_idx) * clx
                       * (IZR (fst xy - x_idx) * clx)
                       + IZR (snd xy - y_idx) * cly
                         * (IZR (snd xy - y_idx) * cly)))).
  - cbn [fst snd]. rewrite !Z.sub_diag.
    replace (IZR 0 * clx * (IZR 0 * clx) + IZR 0 * cly * (IZR 0 * cly))
      with 0 by (simpl; ring).
    destruct (Rlt_dec (radius * radius) 0) as [Hneg|_]; [|reflexivity].
    pose proof (Rle_0_sqr radius) as Hsq. unfold Rsqr in Hsq. lra.
  - unfold loop2. apply NoDup_list_prod; apply NoDup_range_from.
  - unfold loop2. apply in_prod_iff. rewrite !In_range_from. auto.
Qed.

Lemma ln10_pos : 0 < ln 10.
Proof.
  rewrite <- ln_1. apply ln_increasing; lra.
Qed.

Lemma pow10_log10 (x : R) : 0 < x -> pow10 (np_log10 x) = x.
Proof.
  intro Hx. unfold pow10, Rpower, np_log10.
  replace (ln x / ln 10 * ln 10) with (ln x).
  - now apply exp_ln.
  - pose proof ln10_pos. field. lra.
Qed.

Lemma pow10_INR (n : nat) : pow10 (INR n) = 10 ^ n.
Proof. unfold pow10. apply Rpower_pow. lra. Qed.

Lemma np_log10_lt (a n : R) : 0 < a -> a < pow10 n -> np_log10 a < n.
Proof.
  intros Ha Hlt. pose proof ln10_pos as Hl.
  apply ln_increasing in Hlt; [|exact Ha].
  unfold pow10 in Hlt. rewrite ln_Rpower in Hlt.
  unfold np_log10. apply (Rmult_lt_reg_r (ln 10)); [exact Hl|].
  replace (ln a / ln 10 * ln 10) with (ln a) by (field; lra).
  exact Hlt.
Qed.

(** A source of 80 dB over a background of 30 dB: the level in the cell
    of the source stays below 70 dB. *)
Lemma level_at_source_80_30 : level_at_source 80 30 < 70.
Proof.
  unfold level_at_source.
  rewrite (Rmax_left 80 30) by lra.
  assert (HPI : 3 < PI) by (pose proof PI2_3_2; lra).
  assert (HS : 12 < 4 * PI * 1) by lra.
  replace (30 / 10) with (INR 3) by (simpl; lra).
  replace ((80 - 10 * np_log10 (4 * PI * 1)) / 10)
    with (INR 8 + - np_log10 (4 * PI * 1)) by (simpl; lra).
  unfold pow10 at 2. rewrite Rpower_plus, Rpower_Ropp.
  fold (pow10 (INR 8)). fold (pow10 (np_log10 (4 * PI * 1))).
  rewrite !pow10_INR, pow10_log10 by lra.
  assert (Hinv : / (4 * PI * 1) < / 12).
  { apply Rinv_lt_contravar; lra. }
  assert (Hinv0 : 0 < / (4 * PI * 1)).
  { apply Rinv_0_lt_compat. lra. }
  assert (Hlog : np_log10 (10 ^ 3 + 10 ^ 8 * / (4 * PI * 1)) < INR 7).
  { apply np_log10_lt.
    - simpl. lra.
    - rewrite pow10_INR. simpl. lra. }
  assert (H7 : INR 7 = 7) by (simpl; lra).
  rewrite H7 in Hlog. lra.
Qed.

End NoiseField.

(* ================================================================== *)
(** * Part III: further properties of the code *)
(* ================================================================== *)

Section IndexScales.

Lemma scan_US_AQI_some (bps : list breakpoint) (c v : Q) :
  scan_US_AQI bps c = Some v ->
  exists bp, In bp bps /\ conc_low bp <= c /\ c <= conc_high bp /\
             v = interpolate_US bp c.
Proof.
  induction bps as [|bp rest IH]; cbn [scan_US_AQI]; [discriminate|].
  destruct (Qle_bool (conc_low bp) c) eqn:E1;
    destruct (Qle_bool c (conc_high bp)) eqn:E2; cbn [andb];
    try (intro H; destruct (IH H) as (bp' & Hin & Hrest);
         exists bp'; split; [now right | exact Hrest]).
  intros [= <-]. exists bp.
  apply Qle_bool_iff in E1, E2. split; [now left | auto].
Qed.

Lemma scan_US_AQI_skip (bp : breakpoint) (rest : list breakpoint) (c : Q) :
  conc_high bp < c -> scan_US_AQI (bp :: rest) c = scan_US_AQI rest c.
Proof.
  intro H. cbn [scan_US_AQI]. apply Qle_bool_false in H.
  now rewrite H, andb_false_r.
Qed.

Lemma scan_US_AQI_hit (bp : breakpoint) (rest : list breakpoint) (c : Q) :
  conc_low bp <= c -> c <= conc_high bp ->
  scan_US_AQI (bp :: rest) c = Some (interpolate_US bp c).
Proof.
  intros H1 H2. cbn [scan_US_AQI]. apply Qle_bool_iff in H1, H2.
  now rewrite H1, H2.
Qed.

(** Linear interpolation inside a row stays between the two indices of
    the row. *)
Lemma interpolate_between (lo hi il ih c : Q) :
  lo < hi -> il <= ih -> lo <= c -> c <= hi ->
  il <= (ih - il) / (hi - lo) * (c - lo) + il /\
  (ih - il) / (hi - lo) * (c - lo) + il <= ih.
Proof.
  intros Hlh Hi Hlo Hhi.
  assert (Hs : 0 <= (ih - il) / (hi - lo)).
  { apply Qle_shift_div_l; lra. }
  assert (Hfull : (ih - il) / (hi - lo) * (hi - lo) == ih - il).
  { field. lra. }
  split; nra.
Qed.

Lemma interpolate_monotone (lo hi il ih c1 c2 : Q) :
  lo < hi -> il <= ih -> c1 <= c2 ->
  (ih - il) / (hi - lo) * (c1 - lo) + il
  <= (ih - il) / (hi - lo) * (c2 - lo) + il.
Proof.
  intros Hlh Hi Hc.
  assert (Hs : 0 <= (ih - il) / (hi - lo)).
  { apply Qle_shift_div_l; lra. }
  nra.
Qed.

Lemma US_rows_well_formed (p : pollutant) :
  Forall
    (fun bp =>
       conc_low bp < conc_high bp /\ 0 <= index_low bp /\
       index_low bp <= index_high bp /\ index_high bp <= 500)
    (breakpoints_US_AQI p).
Proof.
  destruct p; cbn [breakpoints_US_AQI];
    repeat (apply Forall_cons;
            [cbn [conc_low conc_high index_low index_high];
             unfold Qlt, Qle; simpl; lia|]);
    apply Forall_nil.
Qed.

(** A concentration inside a row of a US table is interpolated in that
    row, and the index lies between the two indices of the row. *)
Theorem US_AQI_within_row (p : pollutant) (bp : breakpoint) (c : Q) :
  In bp (breakpoints_US_AQI p) ->
  conc_low bp <= c -> c <= conc_high bp ->
  calculate_aqi_for_pollutant_US_AQI c p == interpolate_US bp c /\
  index_low bp <= calculate_aqi_for_pollutant_US_AQI c p /\
  calculate_aqi_for_pollutant_US_AQI c p <= index_high bp.
Proof.
  intros Hin Hlo Hhi.
  assert (Hwf : conc_low bp < conc_high bp /\ 0 <= index_low bp /\
                index_low bp <= index_high bp /\ index_high bp <= 500).
  { pose proof (US_rows_well_formed p) as H.
    rewrite Forall_forall in H. now apply H. }
  destruct Hwf as (Hlh & _ & Hi & _).
  assert (Hval : calculate_aqi_for_pollutant_US_AQI c p
                 = interpolate_US bp c).
  { unfold calculate_aqi_for_pollutant_US_AQI.
    destruct p; cbn [breakpoints_US_AQI] in *; simpl in Hin;
      repeat (destruct Hin as [<-|Hin];
              [cbn [conc_low conc_high] in Hlo, Hhi;
               repeat (rewrite scan_US_AQI_skip
                         by (cbn [conc_high]; lra));
               rewrite scan_US_AQI_hit
                 by (cbn [conc_low conc_high]; lra);
               reflexivity|]);
      contradiction. }
  rewrite Hval. split; [reflexivity|].
  unfold interpolate_US. now apply interpolate_between.
Qed.

Lemma US_AQI_within_row_witness :
  calculate_aqi_for_pollutant_US_AQI 7 CO
  == interpolate_US (mk_bp 4.5 9.4 51 100) 7 /\
  index_low (mk_bp 4.5 9.4 51 100)
  <= calculate_aqi_for_pollutant_US_AQI 7 CO /\
  calculate_aqi_for_pollutant_US_AQI 7 CO
  <= index_high (mk_bp 4.5 9.4 51 100).
Proof.
  apply (US_AQI_within_row CO (mk_bp 4.5 9.4 51 100) 7).
  - simpl. right. left. reflexivity.
  - simpl. unfold Qle. simpl. lia.
  - simpl. unfold Qle. simpl. lia.
Defined.

Lemma US_AQI_value_in_scale (c : Q) (p : pollutant) :
  0 <= calculate_aqi_for_pollutant_US_AQI c p /\
  calculate_aqi_for_pollutant_US_AQI c p <= 500.
Proof.
  unfold calculate_aqi_for_pollutant_US_AQI.
  destruct (scan_US_AQI (breakpoints_US_AQI p) c) as [v|] eqn:E.
  - apply scan_US_AQI_some in E as (bp & Hin & Hlo & Hhi & ->).
    pose proof (US_rows_well_formed p) as H.
    rewrite Forall_forall in H.
    destruct (H bp Hin) as (Hlh & H0 & Hi & H500).
    destruct (interpolate_between _ _ _ _ c Hlh Hi Hlo Hhi) as [H1 H2].
    unfold interpolate_US. lra.
  - destruct (Qlt_bool _ c); lra.
Qed.

(** Whatever the concentration, the US index lies in [[0, 500]]. *)
Theorem US_AQI_range (c : Q) (p : pollutant) :
  0 <= calculate_aqi_for_pollutant_US_AQI c p /\
  calculate_aqi_for_pollutant_US_AQI c p <= 500.
Proof. apply US_AQI_value_in_scale. Qed.

(** Below the tables: a negative concentration gives index 0. *)
Theorem US_AQI_negative (c : Q) (p : pollutant) :
  c < 0 -> calculate_aqi_for_pollutant_US_AQI c p == 0.
Proof.
  intro H. unfold calculate_aqi_for_pollutant_US_AQI.
  rewrite scan_US_AQI_none.
  - assert (Hl : Qlt_bool (conc_high (last (breakpoints_US_AQI p)
                                        no_breakpoint)) c = false).
    { apply Qlt_bool_false. destruct p; simpl; lra. }
    rewrite Hl. reflexivity.
  - destruct p; cbn [breakpoints_US_AQI];
      repeat (apply Forall_cons; [left; cbn [conc_low]; lra|]);
      apply Forall_nil.
Qed.

Lemma US_AQI_negative_witness :
  calculate_aqi_for_pollutant_US_AQI (-1) NO2 == 0.
Proof.
  apply (US_AQI_negative (-1) NO2). reflexivity.
Defined.

(** Above the tables: a concentration beyond the upper bound of the last
    row (50.4 ppm, 2049 ppb, 500.4 ug/m3) gives index 500. *)
Theorem US_AQI_saturates (c : Q) (p : pollutant) :
  conc_high (last (breakpoints_US_AQI p) no_breakpoint) < c ->
  calculate_aqi_for_pollutant_US_AQI c p == 500.
Proof.
  intro H. unfold calculate_aqi_for_pollutant_US_AQI.
  rewrite scan_US_AQI_none.
  - apply Qlt_bool_iff in H. rewrite H. reflexivity.
  - destruct p; cbn [breakpoints_US_AQI last conc_high] in *;
      repeat (apply Forall_cons; [right; cbn [conc_high]; lra|]);
      apply Forall_nil.
Qed.

Lemma US_AQI_saturates_witness :
  calculate_aqi_for_pollutant_US_AQI 3000 NO2 == 500.
Proof.
  apply (US_AQI_saturates 3000 NO2). reflexivity.
Defined.

(** *** The Irish index *)

Lemma scan_AQIH_hit (bp : breakpoint_AQIH) (rest : list breakpoint_AQIH)
    (h c : Q) :
  h_conc_high bp = Fin h -> h_conc_low bp <= c -> c < h ->
  scan_AQIH (bp :: rest) c = Some (interpolate_AQIH bp c).
Proof.
  intros Hh Hlo Hhi. cbn [scan_AQIH]. rewrite Hh. cbn [lt_bound].
  apply Qle_bool_iff in Hlo. apply Qlt_bool_iff in Hhi.
  now rewrite Hlo, Hhi.
Qed.

Lemma AQIH_rows_well_formed (p : pollutant) (bps : list breakpoint_AQIH) :
  breakpoints_AQIH p = Some bps ->
  Forall
    (fun bp =>
       1 <= h_index_low bp /\ h_index_low bp <= h_index_high bp /\
       h_index_high bp <= 10 /\
       match h_conc_high bp with
       | Fin h => h_conc_low bp < h
       | PInf => True
       end)
    bps.
Proof.
  destruct p; cbn [breakpoints_AQIH]; intros [= <-];
    repeat (apply Forall_cons;
            [cbn [h_conc_low h_conc_high h_index_low h_index_high];
             unfold Qlt, Qle; simpl; repeat split; try lia|]);
    apply Forall_nil.
Qed.

Lemma interpolate_AQIH_between (bp : breakpoint_AQIH) (c : Q) :
  h_index_low bp <= h_index_high bp ->
  match h_conc_high bp with
  | Fin h => h_conc_low bp < h
  | PInf => True
  end ->
  h_conc_low bp <= c -> lt_bound c (h_conc_high bp) = true ->
  h_index_low bp <= interpolate_AQIH bp c /\
  interpolate_AQIH bp c <= h_index_high bp.
Proof.
  unfold interpolate_AQIH, slope_AQIH.
  destruct (h_conc_high bp) as [h|]; cbn [lt_bound]; intros Hi Hlh Hlo Hhi.
  - apply Qlt_bool_iff in Hhi.
    apply interpolate_between; lra.
  - lra.
Qed.

Lemma interpolate_AQIH_monotone (bp : breakpoint_AQIH) (c1 c2 : Q) :
  h_index_low bp <= h_index_high bp ->
  match h_conc_high bp with
  | Fin h => h_conc_low bp < h
  | PInf => True
  end ->
  c1 <= c2 -> interpolate_AQIH bp c1 <= interpolate_AQIH bp c2.
Proof.
  unfold interpolate_AQIH, slope_AQIH.
  destruct (h_conc_high bp) as [h|]; intros Hi Hlh Hc.
  - now apply interpolate_monotone.
  - lra.
Qed.

(** Every non-negative concentration lies in one row of the table, and
    the converter interpolates in that row. *)
Lemma AQIH_row_of (p : pollutant) (bps : list breakpoint_AQIH) (c : Q) :
  breakpoints_AQIH p = Some bps -> 0 <= c ->
  exists bp,
    In bp bps /\ h_conc_low bp <= c /\
    lt_bound c (h_conc_high bp) = true /\
    calculate_aqi_for_pollutant_AQIH c p = Some (interpolate_AQIH bp c).
Proof.
  intros Hp Hc. unfold calculate_aqi_for_pollutant_AQIH. rewrite Hp.
  assert (Hneg : Qlt_bool c 0 = false) by (apply Qlt_bool_false; lra).
  rewrite Hneg.
  destruct p; cbn [breakpoints_AQIH] in Hp; [discriminate| |];
    injection Hp as <-;
    repeat
      (lazymatch goal with
       | |- context [scan_AQIH ({| h_conc_low := ?lo;
                                   h_conc_high := Fin ?h;
                                   h_index_low := ?il;
                                   h_index_high := ?ih |} :: ?rest) c] =>
           destruct (Qlt_le_dec c h) as [?Hlt|?Hge];
           [ rewrite (scan_AQIH_hit (mk_bph lo (Fin h) il ih) rest h c)
               by (first [reflexivity | cbn [h_conc_low]; lra]);
             exists (mk_bph lo (Fin h) il ih);
             split; [simpl; tauto|];
             split; [cbn [h_conc_low]; lra|];
             split; [cbn [lt_bound h_conc_high];
                     now apply Qlt_bool_iff | reflexivity]
           | rewrite (scan_AQIH_skip (mk_bph lo (Fin h) il ih) rest h c)
               by (first [reflexivity | lra]) ]
       | |- context [scan_AQIH ({| h_conc_low := ?lo;
                                   h_conc_high := PInf;
                                   h_index_low := ?il;
                                   h_index_high := ?ih |} :: ?rest) c] =>
           rewrite (scan_AQIH_open (mk_bph lo PInf il ih) rest c)
             by (first [reflexivity | cbn [h_conc_low]; lra]);
           exists (mk_bph lo PInf il ih);
           split; [simpl; tauto|];
           split; [cbn [h_conc_low]; lra|];
           split; reflexivity
       end).
Qed.

Lemma AQIH_value_in_scale (c : Q) (p : pollutant) :
  p <> CO ->
  exists v,
    calculate_aqi_for_pollutant_AQIH c p = Some v /\ 1 <= v /\ v <= 10.
Proof.
  intro Hp.
  destruct (breakpoints_AQIH p) as [bps|] eqn:Ebps;
    [|destruct p; [contradiction | discriminate | discriminate]].
  destruct (Qlt_le_dec c 0) as [Hneg|Hpos].
  - unfold calculate_aqi_for_pollutant_AQIH. rewrite Ebps.
    apply Qlt_bool_iff in Hneg. rewrite Hneg.
    exists 1. split; [reflexivity | split; lra].
  - destruct (AQIH_row_of p bps c Ebps Hpos)
      as (bp & Hin & Hlo & Hhi & Hval).
    pose proof (AQIH_rows_well_formed p bps Ebps) as Hwf.
    rewrite Forall_forall in Hwf.
    destruct (Hwf bp Hin) as (H1 & Hi & H10 & Hlh).
    destruct (interpolate_AQIH_between bp c Hi Hlh Hlo Hhi) as [Ha Hb].
    exists (interpolate_AQIH bp c). split; [exact Hval | split; lra].
Qed.

(** The Irish index is defined for NO2 and PM2.5 and lies in [[1, 10]],
    also for a negative concentration. *)
Theorem AQIH_range (c : Q) (p : pollutant) :
  p <> CO ->
  exists v,
    calculate_aqi_for_pollutant_AQIH c p = Some v /\ 1 <= v /\ v <= 10.
Proof. apply AQIH_value_in_scale. Qed.

Lemma AQIH_range_witness :
  exists v,
    calculate_aqi_for_pollutant_AQIH 250 PM25 = Some v /\ 1 <= v /\ v <= 10.
Proof.
  apply (AQIH_range 250 PM25). discriminate.
Defined.

(** The Irish index never decreases when the concentration grows: the
    rows are contiguous and each row starts at the index where the row
    before ends. *)
Theorem AQIH_monotone (p : pollutant) (c1 c2 v1 v2 : Q) :
  c1 <= c2 ->
  calculate_aqi_for_pollutant_AQIH c1 p = Some v1 ->
  calculate_aqi_for_pollutant_AQIH c2 p = Some v2 ->
  v1 <= v2.
Proof.
  intros Hc H1 H2.
  destruct (breakpoints_AQIH p) as [bps|] eqn:Ebps.
  2:{ unfold calculate_aqi_for_pollutant_AQIH in H1. rewrite Ebps in H1.
      discriminate. }
  assert (Hp : p <> CO) by (intros ->; discriminate).
  destruct (Qlt_le_dec c1 0) as [Hneg|Hpos].
  - unfold calculate_aqi_for_pollutant_AQIH in H1. rewrite Ebps in H1.
    apply Qlt_bool_iff in Hneg. rewrite Hneg in H1. injection H1 as <-.
    destruct (AQIH_value_in_scale c2 p Hp) as (v & Hv & Hlo & _).
    rewrite Hv in H2. injection H2 as <-. exact Hlo.
  - assert (Hpos2 : 0 <= c2) by lra.
    destruct (AQIH_row_of p bps c1 Ebps Hpos)
      as (bp1 & Hin1 & Hlo1 & Hhi1 & Hval1).
    destruct (AQIH_row_of p bps c2 Ebps Hpos2)
      as (bp2 & Hin2 & Hlo2 & Hhi2 & Hval2).
    rewrite Hval1 in H1. injection H1 as <-.
    rewrite Hval2 in H2. injection H2 as <-.
    pose proof (AQIH_rows_well_formed p bps Ebps) as Hwf.
    rewrite Forall_forall in Hwf.
    destruct (Hwf bp1 Hin1) as (_ & Hi1 & _ & Hlh1).
    destruct (Hwf bp2 Hin2) as (_ & Hi2 & _ & Hlh2).
    destruct (interpolate_AQIH_between bp1 c1 Hi1 Hlh1 Hlo1 Hhi1)
      as [Ha1 Hb1].
    destruct (interpolate_AQIH_between bp2 c2 Hi2 Hlh2 Hlo2 Hhi2)
      as [Ha2 Hb2].
    pose proof (interpolate_AQIH_monotone bp1 c1 c2 Hi1 Hlh1 Hc) as Hsame.
    clear Hwf Hval1 Hval2 Hi1 Hi2 Hlh1 Hlh2.
    destruct p; cbn [breakpoints_AQIH] in Ebps; [discriminate| |];
      injection Ebps as <-; simpl in Hin1, Hin2;
      repeat (destruct Hin1 as [<-|Hin1]; [|try contradiction]);
      repeat (destruct Hin2 as [<-|Hin2]; [|try contradiction]);
      cbn [h_conc_low h_conc_high h_index_low h_index_high lt_bound]
        in Hlo1, Hhi1, Hlo2, Hhi2, Ha1, Hb1, Ha2, Hb2;
      try apply Qlt_bool_iff in Hhi1; try apply Qlt_bool_iff in Hhi2;
      first [exact Hsame | lra].
Qed.

Lemma AQIH_monotone_witness :
  calculate_aqi_for_pollutant_AQIH 100 NO2 = Some ((2 - 1) / (134 - 67) * (100 - 67) + 1) /\
  calculate_aqi_for_pollutant_AQIH 650 NO2 = Some 9 /\
  (2 - 1) / (134 - 67) * (100 - 67) + 1 <= 9.
Proof.
  split; [reflexivity|]. split; [reflexivity|].
  apply (AQIH_monotone NO2 100 650).
  - unfold Qle. simpl. lia.
  - reflexivity.
  - reflexivity.
Defined.

End IndexScales.

Section DiffusionFurther.

(** [_add_emissions] writes only into the layer [z = 0] and only inside
    [[0, grid_dim_x) x [0, grid_dim_y)]: every other cell keeps its mass,
    whatever the sources are. *)
Theorem add_emissions_frame (old_matrix : array3)
    (x_indices y_indices : list Z) (emissions : list Q) (gx gy i j k : Z) :
  (k <> 0 \/ ~ (0 <= i < gx /\ 0 <= j < gy))%Z ->
  get3 (_add_emissions old_matrix x_indices y_indices emissions gx gy) i j k
  == get3 old_matrix i j k.
Proof.
  intro H. unfold _add_emissions. rewrite add_emissions_from.
  assert (Hb : ((0 <=? i) && (i <? gx) && ((0 <=? j) && (j <? gy))
                && (k =? 0))%Z%bool = false).
  { destruct (Z.leb_spec 0 i), (Z.ltb_spec i gx), (Z.leb_spec 0 j),
      (Z.ltb_spec j gy), (Z.eqb_spec k 0); cbn [andb]; try reflexivity.
    destruct H as [H|H]; [contradiction | exfalso; apply H; lia]. }
  rewrite Hb. ring.
Qed.

Lemma add_emissions_frame_witness :
  get3 (_add_emissions (uniform_field small_grid 1) [1%Z] [0%Z] [5] 2 2)
       1 0 1
  == get3 (uniform_field small_grid 1) 1 0 1.
Proof.
  apply (add_emissions_frame (uniform_field small_grid 1) [1%Z] [0%Z] [5]
           2 2 1 0 1).
  left. lia.
Defined.

(** Sources whose indices all fall outside the grid are dropped: the
    field is left as it was, in every cell. *)
Theorem add_emissions_out_of_bounds (old_matrix : array3)
    (x_indices y_indices : list Z) (emissions : list Q) (gx gy : Z)
    (i j k : Z) :
  (forall x y e,
     In (x, y, e) (combine (combine x_indices y_indices) emissions) ->
     ~ (0 <= x < gx /\ 0 <= y < gy)%Z) ->
  get3 (_add_emissions old_matrix x_indices y_indices emissions gx gy) i j k
  == get3 old_matrix i j k.
Proof.
  intro Hout. unfold _add_emissions. rewrite add_emissions_from.
  destruct ((0 <=? i) && (i <? gx) && ((0 <=? j) && (j <? gy))
            && (k =? 0))%Z%bool eqn:Hb; [|ring].
  fold (injected x_indices y_indices emissions i j).
  rewrite injected_no_source; [ring|].
  intros x y e Hin.
  destruct (Z.eq_dec x i) as [->|]; [|now left].
  destruct (Z.eq_dec y j) as [->|]; [|now right].
  exfalso. apply (Hout i j e Hin).
  rewrite !andb_true_iff in Hb.
  destruct Hb as [[[H1 H2] [H3 H4]] _].
  apply Z.leb_le in H1, H3. apply Z.ltb_lt in H2, H4. lia.
Qed.

Lemma add_emissions_out_of_bounds_witness :
  get3 (_add_emissions (uniform_field small_grid 1) [5%Z] [0%Z] [7] 2 2)
       1 0 0
  == get3 (uniform_field small_grid 1) 1 0 0.
Proof.
  apply (add_emissions_out_of_bounds (uniform_field small_grid 1)
           [5%Z] [0%Z] [7] 2 2 1 0 0).
  intros x y e [[= <- <- <-]|[]]. lia.
Defined.

End DiffusionFurther.

Section NoiseFurther.

Local Open Scope R_scope.


(** From decibels to linear power and back. *)
Lemma np_log10_pow10 (y : R) : np_log10 (pow10 y) = y.
Proof.
  unfold np_log10, pow10. rewrite ln_Rpower.
  pose proof ln10_pos. field. lra.
Qed.





Lemma grid_cell_dims_nonzero (cfg : config) :
  valid_grid cfg ->
  IZR (Z.of_nat (GRID_DIM_X cfg)) <> 0 /\
  IZR (Z.of_nat (GRID_DIM_Y cfg)) <> 0 /\
  IZR (GRID_RIGHT cfg - GRID_LEFT cfg) / IZR (Z.of_nat (GRID_DIM_X cfg))
  <> 0 /\
  IZR (GRID_TOP cfg - GRID_BOTTOM cfg) / IZR (Z.of_nat (GRID_DIM_Y cfg))
  <> 0.
Proof.
  intros (Hlr & Hbt & Hnx & Hny).
  assert (Hgx : 0 < IZR (Z.of_nat (GRID_DIM_X cfg))) by (apply (IZR_lt 0); lia).
  assert (Hgy : 0 < IZR (Z.of_nat (GRID_DIM_Y cfg))) by (apply (IZR_lt 0); lia).
  assert (Hw : 0 < IZR (GRID_RIGHT cfg - GRID_LEFT cfg))
    by (apply (IZR_lt 0); lia).
  assert (Hh : 0 < IZR (GRID_TOP cfg - GRID_BOTTOM cfg))
    by (apply (IZR_lt 0); lia).
  pose proof (Rdiv_lt_0_compat _ _ Hw Hgx).
  pose proof (Rdiv_lt_0_compat _ _ Hh Hgy).
  repeat split; lra.
Qed.



(** Without sources the field is the background level, exactly. *)
Theorem noise_without_sources (cfg : config)
    (cell_len_x cell_len_y radius background_dB : R) :
  valid_grid cfg ->
  exists result,
    process_noise cfg [] [] [] cell_len_x cell_len_y radius background_dB
    = Some result /\
    forall xy, result xy = background_dB.
Proof.
  intro Hgrid.
  destruct (grid_cell_dims_nonzero cfg Hgrid) as (Hgx & Hgy & _ & _).
  unfold process_noise.
  rewrite (Rdiv_checked_nonzero _ _ Hgx). cbn [bind].
  rewrite (Rdiv_checked_nonzero _ _ Hgy). cbn [bind combine fold_left].
  eexists. split; [reflexivity|]. intro xy. cbv beta.
  rewrite np_log10_pow10. field.
Qed.

Lemma noise_without_sources_witness :
  exists result,
    process_noise erstfeld [] [] [] 11 11 500 30 = Some result /\
    forall xy, result xy = 30.
Proof.
  apply (noise_without_sources erstfeld 11 11 500 30).
  unfold valid_grid. simpl. lia.
Defined.

End NoiseFurther.

Section TimestepFurther.

(** Without diffusion and without decay there is no stability bound: the
    denominator [loss_rate + 4 * (diff_x + diff_y + diff_z)] is zero and
    [calculate_optimal_dt] has no finite result, whatever the cell sizes
    and the safety factor are. *)
Theorem calculate_optimal_dt_undefined
    (cell_len_x cell_len_y cell_len_z safety_factor : Q) :
  calculate_optimal_dt cell_len_x cell_len_y cell_len_z 0 0 safety_factor
  = None.
Proof.
  unfold calculate_optimal_dt, div.
  destruct (Qeq_bool (cell_len_x * cell_len_x) 0); [reflexivity|].
  cbn [bind].
  destruct (Qeq_bool (cell_len_y * cell_len_y) 0); [reflexivity|].
  cbn [bind].
  destruct (Qeq_bool (cell_len_z * cell_len_z) 0); [reflexivity|].
  cbn [bind].
  match goal with
  | |- context [Qeq_bool ?d 0] =>
      assert (Hd : Qeq_bool d 0 = true)
  end.
  { apply Qeq_bool_iff. unfold Qdiv. ring. }
  rewrite Hd. reflexivity.
Qed.

(** A stable step of one second or more needs no sub-stepping: the
    driver takes [n = 1] and steps by exactly one second. *)
Theorem fit_dt_to_second_whole (dt : Q) :
  1 <= dt ->
  exists dt', fit_dt_to_second dt = Some dt' /\ dt' == 1.
Proof.
  intro Hdt.
  assert (Hpos : 0 < dt) by lra.
  destruct (fit_dt_to_second_spec dt Hpos)
    as (n & Hn & _ & Hle & Hmin & dt' & Hfit & Heq & _).
  exists dt'. split; [exact Hfit|].
  assert (Hn1 : (n <= 1)%Z).
  { apply Hmin; [lia|]. change (inject_Z 1) with 1.
    unfold Qdiv. rewrite Qmult_1_l. change (/ 1) with 1. exact Hdt. }
  assert (n = 1%Z) by lia. subst n. rewrite Heq. reflexivity.
Qed.

Lemma fit_dt_to_second_whole_witness :
  exists dt', fit_dt_to_second (5 # 2) = Some dt' /\ dt' == 1.
Proof.
  apply (fit_dt_to_second_whole (5 # 2)). unfold Qle. simpl. lia.
Defined.

End TimestepFurther.

Section StatisticsFurther.

(** The running maximum only grows and dominates every array read. *)
Lemma fold_max_ge (l : list (csv_file * Z)) (s : statistics) (x y : nat) :
  max_array s x y <= max_array (fold_left accumulate l s) x y /\
  forall e, In e l ->
    file_values (fst e) x y <= max_array (fold_left accumulate l s) x y.
Proof.
  revert s. induction l as [|e0 rest IH]; intro s; cbn [fold_left].
  - split; [lra | intros e []].
  - destruct (IH (accumulate s e0)) as [Hmono Hall].
    unfold accumulate in Hmono at 1. cbn [max_array] in Hmono.
    unfold np_maximum in Hmono.
    pose proof (Q.le_max_l (max_array s x y) (file_values (fst e0) x y)).
    pose proof (Q.le_max_r (max_array s x y) (file_values (fst e0) x y)).
    split; [lra|].
    intros e [<-|Hin]; [lra | now apply Hall].
Qed.

(** The running minimum is finite once an array has been read, only
    shrinks, and is dominated by every array read. *)
Lemma fold_min_le (l : list (csv_file * Z)) (s : statistics) (x y : nat) :
  match min_array (fold_left accumulate l s) x y with
  | Fin m =>
      (forall e, In e l -> m <= file_values (fst e) x y) /\
      match min_array s x y with
      | Fin m0 => m <= m0
      | PInf => l <> []
      end
  | PInf => l = [] /\ min_array s x y = PInf
  end.
Proof.
  revert s. induction l as [|e0 rest IH]; intro s; cbn [fold_left].
  - destruct (min_array s x y) as [m0|] eqn:E.
    + split; [intros e [] | lra].
    + split; reflexivity.
  - specialize (IH (accumulate s e0)).
    destruct (min_array (fold_left accumulate rest (accumulate s e0)) x y)
      as [m|].
    + destruct IH as [Hall Hold].
      unfold accumulate in Hold at 1. cbn [min_array] in Hold.
      unfold np_minimum in Hold.
      destruct (min_array s x y) as [m0|].
      * pose proof (Q.le_min_l m0 (file_values (fst e0) x y)).
        pose proof (Q.le_min_r m0 (file_values (fst e0) x y)).
        split; [|lra].
        intros e [<-|Hin]; [lra | now apply Hall].
      * split; [|discriminate].
        intros e [<-|Hin]; [lra | now apply Hall].
    + destruct IH as [_ Hinf].
      unfold accumulate in Hinf. cbn [min_array] in Hinf.
      unfold np_minimum in Hinf.
      destruct (min_array s x y); discriminate.
Qed.

(** The saved maximum and minimum bound every snapshot of the key, cell
    by cell; the maximum is never negative, because the running maximum
    starts from zeros. *)
Theorem overall_max_min_bound (file_data : list (csv_file * Z))
    (file : csv_file) (timestamp : Z) (x y : nat) :
  In (file, timestamp) file_data ->
  overall_min file_data x y <= file_values file x y /\
  file_values file x y <= overall_max file_data x y /\
  0 <= overall_max file_data x y.
Proof.
  intro Hin.
  assert (Hs : In (file, timestamp) (sort_by snd file_data)).
  { now apply In_sort_by. }
  unfold overall_min, overall_max, accumulate_all, replace_inf_by_zero.
  destruct (fold_max_ge (sort_by snd file_data) initial_statistics x y)
    as [Hzero Hmax].
  pose proof (fold_min_le (sort_by snd file_data) initial_statistics x y)
    as Hmin.
  split; [|split].
  - destruct (min_array _ x y) as [m|].
    + destruct Hmin as [Hall _]. exact (Hall _ Hs).
    + destruct Hmin as [Hnil _]. rewrite Hnil in Hs. contradiction.
  - exact (Hmax _ Hs).
  - exact Hzero.
Qed.

Lemma overall_max_min_bound_witness :
  overall_min one_file 0%nat 0%nat
  <= file_values (mk_file "data_co_1_3600.0.csv" (fun _ _ => 3)) 0%nat 0%nat
  /\
  file_values (mk_file "data_co_1_3600.0.csv" (fun _ _ => 3)) 0%nat 0%nat
  <= overall_max one_file 0%nat 0%nat /\
  0 <= overall_max one_file 0%nat 0%nat.
Proof.
  apply (overall_max_min_bound one_file
           (mk_file "data_co_1_3600.0.csv" (fun _ _ => 3)) 3600 0 0).
  unfold one_file. left. reflexivity.
Defined.

(** No file at all: [calculate_statistics] still saves the four arrays,
    all zero ([inf] is replaced by 0 and the sum is not divided), and no
    moving average. *)
Theorem statistics_of_nothing (data_key : string) :
  exists mx mn av df,
    calculate_statistics data_key []
    = Some [ mk_output data_key stat_max mx;
             mk_output data_key stat_min mn;
             mk_output data_key stat_avg av;
             mk_output data_key stat_diff df ] /\
    forall x y, mx x y == 0 /\ mn x y == 0 /\ av x y == 0 /\ df x y == 0.
Proof.
  do 4 eexists. split; [reflexivity|].
  intros x y. repeat split.
Qed.

(** *** The dictionary of snapshots *)

Lemma dict_set_keys_In {V : Type} (k k0 : Z) (v : V) (d : list (Z * V)) :
  In k (dict_keys (dict_set Z.eqb k0 v d)) <-> k = k0 \/ In k (dict_keys d).
Proof.
  induction d as [|[k' v'] rest IH]; cbn [dict_set dict_keys map fst In].
  - intuition.
  - destruct (Z.eqb_spec k0 k') as [->|Hne]; cbn [map fst In].
    + intuition.
    + fold (dict_keys (dict_set Z.eqb k0 v rest)).
      fold (dict_keys rest). rewrite IH. intuition.
Qed.

Lemma dict_set_keys_NoDup {V : Type} (k0 : Z) (v : V) (d : list (Z * V)) :
  NoDup (dict_keys d) -> NoDup (dict_keys (dict_set Z.eqb k0 v d)).
Proof.
  induction d as [|[k' v'] rest IH]; cbn [dict_set dict_keys map fst];
    intro Hnd.
  - repeat constructor. intros [].
  - inversion Hnd as [|? ? Hnotin Hrest]; subst.
    destruct (Z.eqb_spec k0 k') as [->|Hne]; cbn [map fst].
    + now constructor.
    + constructor.
      * fold (dict_keys (dict_set Z.eqb k0 v rest)).
        rewrite dict_set_keys_In. intros [Heq|Hin]; [congruence|].
        now apply Hnotin.
      * now apply IH.
Qed.

Lemma fold_accumulate_keys (l : list (csv_file * Z)) (s : statistics) :
  NoDup (dict_keys (timestamp_data s)) ->
  NoDup (dict_keys (timestamp_data (fold_left accumulate l s))) /\
  forall t,
    In t (dict_keys (timestamp_data (fold_left accumulate l s))) <->
    In t (dict_keys (timestamp_data s)) \/ exists file, In (file, t) l.
Proof.
  revert s. induction l as [|[f t0] rest IH]; intros s Hnd;
    cbn [fold_left].
  - split; [exact Hnd|]. intro t. split; [now left|].
    intros [H|[file []]]. exact H.
  - destruct (IH (accumulate s (f, t0))) as [Hnd' Hkeys].
    { unfold accumulate. cbn [timestamp_data snd].
      now apply dict_set_keys_NoDup. }
    split; [exact Hnd'|].
    intro t. rewrite Hkeys. unfold accumulate. cbn [timestamp_data snd fst].
    rewrite dict_set_keys_In. split.
    + intros [[->|H]|[file H]].
      * right. exists f. now left.
      * now left.
      * right. exists file. now right.
    + intros [H|[file [[= <- <-]|H]]].
      * left. now right.
      * left. now left.
      * right. exists file. exact H.
Qed.

(** The start times of the windows: the dictionary [timestamp_data]
    that [calculate_statistics] builds has each timestamp of the files
    once, and nothing else. *)
Theorem timestamp_data_keys (file_data : list (csv_file * Z)) :
  NoDup (dict_keys (timestamp_data (accumulate_all file_data))) /\
  forall t,
    In t (dict_keys (timestamp_data (accumulate_all file_data))) <->
    exists file, In (file, t) file_data.
Proof.
  unfold accumulate_all.
  destruct (fold_accumulate_keys (sort_by snd file_data) initial_statistics)
    as [Hnd Hkeys].
  { cbn. constructor. }
  split; [exact Hnd|].
  intro t. rewrite Hkeys. cbn [initial_statistics timestamp_data dict_keys
                                map In].
  split.
  - intros [[]|[file H]]. exists file. now apply In_sort_by in H.
  - intros [file H]. right. exists file. now apply In_sort_by.
Qed.

(** *** The one-hour window *)

Lemma filter_single {A : Type} (f : A -> bool) (l : list A) (a : A) :
  NoDup l -> In a l -> f a = true ->
  (forall b, In b l -> f b = true -> b = a) ->
  filter f l = [a].
Proof.
  induction l as [|b rest IH]; intros Hnd Hin Ha Huniq; [contradiction|].
  inversion Hnd as [|? ? Hnotin Hrest]; subst. cbn [filter].
  destruct Hin as [->|Hin].
  - rewrite Ha. f_equal.
    assert (Hnone : forall c, In c rest -> f c = false).
    { intros c Hc. destruct (f c) eqn:E; [|reflexivity].
      assert (c = a) by (apply Huniq; [now right | exact E]).
      subst c. contradiction. }
    clear -Hnone. induction rest as [|c rest IH]; [reflexivity|].
    cbn [filter]. rewrite (Hnone c (or_introl eq_refl)).
    apply IH. intros; apply Hnone; now right.
  - destruct (f b) eqn:E.
    + assert (b = a) by (apply Huniq; [now left | exact E]).
      subst b. contradiction.
    + apply IH; try assumption.
      intros c Hc. apply Huniq. now right.
Qed.

(** With timestamps on whole hours, as the grouping produces them, the
    one-hour window of a timestamp contains that timestamp alone: a file
    is saved for every observed timestamp, and it is the snapshot
    itself. *)
Theorem one_hour_average_is_snapshot (data_key : string)
    (d : list (Z * grid)) (t : Z) :
  NoDup (dict_keys d) ->
  (forall k, In k (dict_keys d) -> exists n, k = (3600 * n)%Z) ->
  In t (dict_keys d) ->
  exists avg,
    moving_average_at data_key (sorted (dict_keys d)) d 3600 1 "1h" "hour" t
    = Some [ mk_output data_key
               (stat_window "1h" "hour" (Z.quot t 3600)) avg ] /\
    forall x y, avg x y == snapshot_at d t x y.
Proof.
  intros Hnd Hhours Hin.
  assert (Hfilter : filter (in_window t 3600) (sorted (dict_keys d)) = [t]).
  { apply filter_single.
    - unfold sorted. eapply Permutation_NoDup; [|exact Hnd].
      apply Permutation_sym, sort_by_perm.
    - unfold sorted. now apply In_sort_by.
    - unfold in_window.
      destruct (Z.leb_spec t t); [|lia].
      destruct (Z.ltb_spec t (t + 3600)); [reflexivity | lia].
    - intros k Hk Hw. unfold sorted in Hk. apply In_sort_by in Hk.
      destruct (Hhours k Hk) as [n ->].
      destruct (Hhours t Hin) as [n' ->].
      unfold in_window in Hw. apply andb_true_iff in Hw as [H1 H2].
      apply Z.leb_le in H1. apply Z.ltb_lt in H2. lia. }
  unfold moving_average_at. rewrite Hfilter. cbn [List.length Nat.leb].
  rewrite sum_window_keys.
  2:{ intros t' [<-|[]]. exact Hin. }
  eexists. split; [reflexivity|].
  intros x y. unfold grid_div. cbn [fold_left List.length].
  unfold grid_add, np_zeros. change (inject_Z (Z.of_nat 1)) with 1.
  field.
Qed.

Lemma one_hour_average_is_snapshot_witness :
  exists avg,
    moving_average_at "data_co" (sorted (dict_keys two_snapshots))
      two_snapshots 3600 1 "1h" "hour" 3600
    = Some [ mk_output "data_co"
               (stat_window "1h" "hour" (Z.quot 3600 3600)) avg ] /\
    forall x y, avg x y == snapshot_at two_snapshots 3600 x y.
Proof.
  apply (one_hour_average_is_snapshot "data_co" two_snapshots 3600).
  - unfold two_snapshots. cbn. repeat constructor; simpl; intuition lia.
  - unfold two_snapshots. cbn. intros k [<-|[<-|[]]].
    + exists 0%Z. reflexivity.
    + exists 1%Z. reflexivity.
  - unfold two_snapshots. cbn. right. left. reflexivity.
Defined.

End StatisticsFurther.

(* ------------------------------------------------------------------ *)
(** ** process_data.py: the file names the grouping loop does not keep *)

Section GroupingFurther.

Local Open Scope string_scope.

Lemma file_action_break (file : csv_file) :
  List.length (split "_" (basename (file_path file))) <> 3%nat ->
  List.length (split "_" (basename (file_path file))) <> 4%nat ->
  file_action file = Break.
Proof.
  unfold file_action. intros H3 H4.
  destruct (split "_" (basename (file_path file)))
    as [|p0 [|p1 [|p2 [|p3 [|p4 rest]]]]]; cbn in H3, H4;
    try reflexivity; congruence.
Qed.

Lemma file_action_no_break (file : csv_file) :
  List.length (split "_" (basename (file_path file))) = 3%nat \/
  List.length (split "_" (basename (file_path file))) = 4%nat ->
  file_action file <> Break.
Proof.
  unfold file_action, keep_timestamp. intros H.
  destruct (split "_" (basename (file_path file)))
    as [|p0 [|p1 [|p2 [|p3 [|p4 rest]]]]]; cbn in H;
    try (destruct H; discriminate).
  - destruct (py_int (first_field p2)); [|discriminate].
    destruct (_ || _)%bool; discriminate.
  - destruct (py_int p2); [|discriminate].
    destruct (negb _); [discriminate|].
    destruct (py_int (first_field p3)); [|discriminate].
    destruct (_ || _)%bool; discriminate.
Qed.

Lemma group_files_break (pre post : list csv_file) (file : csv_file)
    (data_types : list (string * list (csv_file * Z))) :
  file_action file = Break ->
  group_files (pre ++ file :: post) data_types = group_files pre data_types.
Proof.
  intro Hbreak. revert data_types.
  induction pre as [|f pre IH]; intro data_types; cbn [app group_files].
  - now rewrite Hbreak.
  - destruct (file_action f); auto.
Qed.

Lemma group_files_raise (pre post : list csv_file) (file : csv_file)
    (data_types : list (string * list (csv_file * Z))) :
  Forall (fun f => file_action f <> Break) pre ->
  file_action file = Raise ->
  group_files (pre ++ file :: post) data_types = None.
Proof.
  intros Hpre Hraise. revert data_types.
  induction Hpre as [|f pre Hf Hpre IH]; intro data_types;
    cbn [app group_files].
  - now rewrite Hraise.
  - destruct (file_action f); auto. congruence.
Qed.

(** A file whose name does not split into three or four fields at ["_"]
    ends the grouping loop: the files that [glob] lists after it are never
    looked at, whatever their names, and the run is the run on the files
    before it. *)
Theorem grouping_stops_at_other_names
    (pre post : list csv_file) (file : csv_file) :
  List.length (split "_" (basename (file_path file))) <> 3%nat ->
  List.length (split "_" (basename (file_path file))) <> 4%nat ->
  process_data_statistics (pre ++ file :: post)
  = process_data_statistics pre.
Proof.
  intros H3 H4. unfold process_data_statistics.
  now rewrite group_files_break by now apply file_action_break.
Qed.

Lemma grouping_stops_at_other_names_witness :
  process_data_statistics
    ([] ++ mk_file "out/data_co_1_3600_old.csv" (fun _ _ => 0%Q)
        :: sample_files)
  = process_data_statistics [].
Proof.
  apply (grouping_stops_at_other_names []
           sample_files
           (mk_file "out/data_co_1_3600_old.csv" (fun _ _ => 0%Q)));
    vm_compute; discriminate.
Defined.

(** A four-field name whose height field, in ASCII, is not an integer
    makes [int(parts[2])] raise outside the [try] block: when no earlier
    file ended the loop, the whole run fails and nothing is saved. *)
Theorem grouping_aborts_on_height
    (pre post : list csv_file) (file : csv_file) (p0 p1 p2 p3 : string) :
  Forall (fun f =>
            List.length (split "_" (basename (file_path f))) = 3%nat \/
            List.length (split "_" (basename (file_path f))) = 4%nat) pre ->
  split "_" (basename (file_path file)) = [p0; p1; p2; p3] ->
  is_ascii p2 = true ->
  py_int p2 = None ->
  process_data_statistics (pre ++ file :: post) = None.
Proof.
  intros Hpre Hparts _ Hint. unfold process_data_statistics.
  rewrite group_files_raise; [reflexivity| |].
  - eapply Forall_impl; [|exact Hpre].
    intros f Hf. now apply file_action_no_break.
  - unfold file_action. now rewrite Hparts, Hint.
Qed.

Lemma grouping_aborts_on_height_witness :
  process_data_statistics
    (sample_files
       ++ mk_file "out/data_co_top_3600.csv" (fun _ _ => 0%Q) :: [])
  = None.
Proof.
  apply (grouping_aborts_on_height sample_files []
           (mk_file "out/data_co_top_3600.csv" (fun _ _ => 0%Q))
           "data" "co" "top" "3600.csv").
  - unfold sample_files.
    repeat (apply Forall_cons;
            [ vm_compute; first [ left; reflexivity | right; reflexivity ]
            | ]).
    apply Forall_nil.
  - vm_compute. reflexivity.
  - vm_compute. reflexivity.
  - vm_compute. reflexivity.
Defined.



(** A three-field name whose last field, up to its first ["."], is in
    ASCII and not an integer: the [ValueError] of [int(timestamp_str)] is
    caught, and the run is the run without the file. *)
Theorem grouping_skips_unparsable_timestamp
    (pre post : list csv_file) (file : csv_file) (p0 p1 p2 : string) :
  split "_" (basename (file_path file)) = [p0; p1; p2] ->
  is_ascii (first_field p2) = true ->
  py_int (first_field p2) = None ->
  process_data_statistics (pre ++ file :: post)
  = process_data_statistics (pre ++ post).
Proof.
  intros Hparts _ Hint. unfold process_data_statistics.
  rewrite group_files_skip; [reflexivity|].
  unfold file_action, keep_timestamp. now rewrite Hparts, Hint.
Qed.

Lemma grouping_skips_unparsable_timestamp_witness :
  process_data_statistics
    (sample_files
       ++ mk_file "out/data_co_final.csv" (fun _ _ => 5%Q) :: [])
  = process_data_statistics (sample_files ++ []).
Proof.
  apply (grouping_skips_unparsable_timestamp sample_files []
           (mk_file "out/data_co_final.csv" (fun _ _ => 5%Q))
           "data" "co" "final.csv").
  - vm_compute. reflexivity.
  - vm_compute. reflexivity.
  - vm_compute. reflexivity.
Defined.

End GroupingFurther.

(* ------------------------------------------------------------------ *)
(** ** process_gas_to_aqi.py: the maps of the US index *)

Section IndexMaps.

Lemma conversion_factor_defined (g : gas) :
  exists factor, conversion_factor_us_AQI g = Some factor.
Proof. destruct g; vm_compute; eauto. Qed.

Lemma fold_max_aqi_bounds (factor : Q) (g : gas) (files : list csv_file)
    (init : grid) (x y : nat) :
  0 <= init x y <= 500 ->
  0 <= fold_left
         (fun max_aqi file =>
            np_maximum max_aqi (aqi_array_US factor g (file_values file)))
         files init x y <= 500.
Proof.
  revert init. induction files as [|f rest IH]; intros init Hinit;
    cbn [fold_left]; [exact Hinit|].
  apply IH. unfold np_maximum, aqi_array_US.
  pose proof (US_AQI_value_in_scale (file_values f x y * factor)
                (pollutant_type g)) as [H0 H500].
  split.
  - eapply Qle_trans; [|apply Q.le_max_l]. apply Hinit.
  - apply Q.max_lub; [apply Hinit | exact H500].
Qed.

Lemma fold_max_aqi_ge (factor : Q) (g : gas) (files : list csv_file)
    (init : grid) (x y : nat) :
  let result :=
    fold_left
      (fun max_aqi file =>
         np_maximum max_aqi (aqi_array_US factor g (file_values file)))
      files init in
  init x y <= result x y /\
  forall file, In file files ->
    aqi_array_US factor g (file_values file) x y <= result x y.
Proof.
  revert init. induction files as [|f rest IH]; intro init;
    cbn [fold_left]; cbv zeta.
  - split; [apply Qle_refl | intros file []].
  - destruct (IH (np_maximum init (aqi_array_US factor g (file_values f))))
      as [Hmono Hall].
    cbv zeta in Hmono, Hall. unfold np_maximum in Hmono at 1.
    pose proof (Q.le_max_l (init x y)
                  (aqi_array_US factor g (file_values f) x y)).
    pose proof (Q.le_max_r (init x y)
                  (aqi_array_US factor g (file_values f) x y)).
    split; [lra|].
    intros file [<-|Hin]; [lra | now apply Hall].
Qed.

Lemma py_max_In (first : Q) (rest : list Q) :
  In (py_max first rest) (first :: rest).
Proof.
  unfold py_max. revert first.
  induction rest as [|v rest IH]; intro first; cbn [fold_left].
  - now left.
  - destruct (Qlt_bool first v).
    + right. apply IH.
    + destruct (IH first) as [H|H]; [now left | right; now right].
Qed.

Lemma py_max_ge (first : Q) (rest : list Q) :
  first <= py_max first rest /\
  forall v, In v rest -> v <= py_max first rest.
Proof.
  unfold py_max. revert first.
  induction rest as [|v0 rest IH]; intro first; cbn [fold_left].
  - split; [apply Qle_refl | intros v []].
  - destruct (Qlt_bool first v0) eqn:E.
    + apply Qlt_bool_iff in E. destruct (IH v0) as [H1 H2].
      split; [lra|]. intros v [<-|Hin]; [exact H1 | now apply H2].
    + apply Qlt_bool_false in E. destruct (IH first) as [H1 H2].
      split; [exact H1|]. intros v [<-|Hin]; [lra | now apply H2].
Qed.

Lemma pollutant_aqi_US_spec (found : gas -> list csv_file) (g : gas) :
  exists factor entry,
    conversion_factor_us_AQI g = Some factor /\
    pollutant_aqi_US found g = Some entry /\
    (forall g' m, In (g', m) entry ->
       g' = g /\ m = max_aqi_US factor g (found g)) /\
    (found g <> [] -> In (g, max_aqi_US factor g (found g)) entry).
Proof.
  destruct (conversion_factor_defined g) as [factor Hf].
  exists factor. unfold pollutant_aqi_US. rewrite Hf. cbn [bind].
  destruct (found g) as [|f rest] eqn:E.
  - exists []. repeat split; try easy.
  - eexists. split; [reflexivity|]. split; [reflexivity|]. split.
    + intros g' m [[= <- <-]|[]]. now split.
    + intros _. now left.
Qed.

Lemma all_aqi_data_US_spec (found : gas -> list csv_file) (l : list gas) :
  exists all,
    all_aqi_data_US found l = Some all /\
    (forall g m, In (g, m) all ->
       exists factor, conversion_factor_us_AQI g = Some factor /\
                      m = max_aqi_US factor g (found g)) /\
    (forall g, In g l -> found g <> [] ->
       exists factor, conversion_factor_us_AQI g = Some factor /\
                      In (g, max_aqi_US factor g (found g)) all).
Proof.
  induction l as [|g0 rest (all & Hall & Hin & Hout)];
    cbn [all_aqi_data_US].
  - exists []. repeat split; try easy.
  - destruct (pollutant_aqi_US_spec found g0)
      as (factor & entry & Hf & He & Hein & Heout).
    exists (entry ++ all). rewrite He, Hall. cbn [bind].
    split; [reflexivity|]. split.
    + intros g m H. apply in_app_or in H as [H|H].
      * apply Hein in H as [-> ->]. now exists factor.
      * now apply Hin.
    + intros g [<-|Hg] Hne.
      * exists factor. split; [exact Hf|].
        apply in_or_app. left. now apply Heout.
      * destruct (Hout g Hg Hne) as (f & Hf' & H).
        exists f. split; [exact Hf'|]. apply in_or_app. now right.
Qed.

Lemma overall_aqi_spec (all : list (gas * grid)) (x y : nat) :
  all <> [] ->
  (exists g m, In (g, m) all /\ overall_aqi all x y = m x y) /\
  forall g m, In (g, m) all -> m x y <= overall_aqi all x y.
Proof.
  intro Hne. unfold overall_aqi.
  destruct all as [|[g0 m0] rest]; [congruence|]. cbn [map snd].
  split.
  - destruct (py_max_In (m0 x y) (map (fun entry => snd entry x y) rest))
      as [H|H].
    + exists g0, m0. split; [now left | now rewrite <- H].
    + apply in_map_iff in H as ([g m] & Heq & Hin).
      exists g, m. split; [now right | now rewrite <- Heq].
  - destruct (py_max_ge (m0 x y) (map (fun entry => snd entry x y) rest))
      as [H1 H2].
    intros g m [[= <- <-]|Hin]; [exact H1|].
    apply H2. apply in_map_iff. now exists (g, m).
Qed.

(** The US part of [process_gas_to_aqi] always completes, whatever window
    files [glob] finds.  Every map it saves has all its cells in
    [[0, 500]].  For a pollutant with window files it saves that
    pollutant's map and the overall map, and in every cell the index of
    each window file is at most the pollutant's map, which is at most the
    overall map. *)
Theorem gas_to_aqi_US_maps (found : gas -> list csv_file) :
  exists saved,
    process_gas_to_aqi_US found = Some saved /\
    (forall name m, In (name, m) saved ->
       forall x y, 0 <= m x y /\ m x y <= 500) /\
    (forall g file, In file (found g) ->
       exists factor m o,
         conversion_factor_us_AQI g = Some factor /\
         In ((gas_name g ++ "_max_aqi.csv")%string, m) saved /\
         In ("overall_max_aqi.csv"%string, o) saved /\
         forall x y,
           calculate_aqi_for_pollutant_US_AQI
             (file_values file x y * factor) (pollutant_type g) <= m x y /\
           m x y <= o x y).
Proof.
  destruct (all_aqi_data_US_spec found gases) as (all & Hall & Hin & Hout).
  unfold process_gas_to_aqi_US. rewrite Hall. cbn [bind].
  eexists. split; [reflexivity|].
  assert (Hbounds : forall g m, In (g, m) all ->
            forall x y, 0 <= m x y /\ m x y <= 500).
  { intros g m H x y. destruct (Hin g m H) as (factor & _ & ->).
    apply (fold_max_aqi_bounds factor g (found g) np_zeros x y).
    unfold np_zeros. lra. }
  split.
  - intros name m H x y. apply in_app_or in H as [H|H].
    + apply in_map_iff in H as ([g m'] & [= _ <-] & H).
      now apply (Hbounds g).
    + destruct all as [|e all'] eqn:E; [destruct H|].
      destruct H as [[= _ <-]|[]].
      destruct (overall_aqi_spec (e :: all') x y) as [(g & m & Hm & ->) _];
        [discriminate|].
      now apply (Hbounds g).
  - intros g file Hfile.
    assert (Hne : found g <> []) by (intro E; rewrite E in Hfile; easy).
    destruct (Hout g) as (factor & Hf & Hm); [destruct g; cbn; auto|exact Hne|].
    exists factor, (max_aqi_US factor g (found g)), (overall_aqi all).
    split; [exact Hf|]. split; [|split].
    + apply in_or_app. left. apply in_map_iff.
      now exists (g, max_aqi_US factor g (found g)).
    + apply in_or_app. right.
      destruct all; [destruct Hm | now left].
    + intros x y. split.
      * apply (fold_max_aqi_ge factor g (found g) np_zeros x y).
        exact Hfile.
      * assert (Hall' : all <> []).
        { intro E. rewrite E in Hm. destruct Hm. }
        destruct (overall_aqi_spec all x y Hall') as [_ Hge].
        exact (Hge g _ Hm).
Qed.

(** Carbon monoxide alone, two windows: the two files that are saved. *)
Example co_windows_saved :
  exists saved,
    process_gas_to_aqi_US co_windows = Some saved /\
    map fst saved = ["co_max_aqi.csv"; "overall_max_aqi.csv"]%string /\
    Forall (fun entry =>
              snd entry 0%nat 0%nat
              == 101 + (49 / 2.9) * (11 * 24.45 / 28.01 - 9.5)) saved.
Proof.
  eexists. split; [reflexivity|].
  split; [reflexivity|].
  apply Forall_cons; [vm_compute; reflexivity|].
  apply Forall_cons; [vm_compute; reflexivity|].
  apply Forall_nil.
Qed.

End IndexMaps.

(* ------------------------------------------------------------------ *)
(** ** run_sim.py: the noise exposure counters *)

Section NoiseExposureCounters.

Local Open Scope Z_scope.

Lemma wrap_int32_small (z : Z) :
  0 <= z < 2 ^ 31 -> wrap_int32 z = z.
Proof.
  intro H. unfold wrap_int32.
  rewrite Z.mod_small by lia. lia.
Qed.

Lemma at_least_bit (g : noise_grid) (threshold : R) (c : Z * Z) :
  0 <= at_least g threshold c <= 1.
Proof. unfold at_least. destruct (Rle_dec _ _); lia. Qed.

Lemma at_least_antitone (g : noise_grid) (t1 t2 : R) (c : Z * Z) :
  (t1 <= t2)%R -> at_least g t2 c <= at_least g t1 c.
Proof.
  intro H. unfold at_least.
  destruct (Rle_dec t2 (g c)), (Rle_dec t1 (g c)); try lia.
  exfalso. lra.
Qed.

Lemma count_exposures_invariant (noise_grids : list noise_grid)
    (s : noise_counters) (n : Z) (c : Z * Z) :
  0 <= noise_exposure_very_high s c ->
  noise_exposure_very_high s c <= noise_exposure_high s c ->
  noise_exposure_high s c <= noise_exposure_mid s c ->
  noise_exposure_mid s c <= noise_exposure_low s c ->
  noise_exposure_low s c <= n ->
  n + Z.of_nat (List.length noise_grids) < 2 ^ 31 ->
  let s' := fold_left count_exposure noise_grids s in
  0 <= noise_exposure_very_high s' c /\
  noise_exposure_very_high s' c <= noise_exposure_high s' c /\
  noise_exposure_high s' c <= noise_exposure_mid s' c /\
  noise_exposure_mid s' c <= noise_exposure_low s' c /\
  noise_exposure_low s' c <= n + Z.of_nat (List.length noise_grids).
Proof.
  revert s n.
  induction noise_grids as [|g rest IH]; intros s n H0 H1 H2 H3 H4 Hn;
    cbn [fold_left List.length] in *.
  - cbv zeta. lia.
  - pose proof (at_least_bit g NOISE_THRESHOLD_LOW c) as Bl.
    pose proof (at_least_bit g NOISE_THRESHOLD_MID c) as Bm.
    pose proof (at_least_bit g NOISE_THRESHOLD_HIGH c) as Bh.
    pose proof (at_least_bit g NOISE_THERESHOLD_VERY_HIGH c) as Bv.
    assert (Alm : at_least g NOISE_THRESHOLD_MID c
                  <= at_least g NOISE_THRESHOLD_LOW c).
    { apply at_least_antitone.
      unfold NOISE_THRESHOLD_LOW, NOISE_THRESHOLD_MID. lra. }
    assert (Amh : at_least g NOISE_THRESHOLD_HIGH c
                  <= at_least g NOISE_THRESHOLD_MID c).
    { apply at_least_antitone.
      unfold NOISE_THRESHOLD_MID, NOISE_THRESHOLD_HIGH. lra. }
    assert (Ahv : at_least g NOISE_THERESHOLD_VERY_HIGH c
                  <= at_least g NOISE_THRESHOLD_HIGH c).
    { apply at_least_antitone.
      unfold NOISE_THRESHOLD_HIGH, NOISE_THERESHOLD_VERY_HIGH. lra. }
    replace (n + Z.of_nat (S (List.length rest)))
      with ((n + 1) + Z.of_nat (List.length rest)) by lia.
    apply IH; unfold count_exposure;
      cbn [noise_exposure_low noise_exposure_mid noise_exposure_high
           noise_exposure_very_high];
      unfold add_int32; rewrite ?wrap_int32_small; lia.
Qed.

(** The four exposure maps that [run_sim.py] saves are nested.  In a run
    with fewer than 2^31 noise updates (the counters are [np.int32]), in
    every cell: the count for 70 dB is at most the count for 60 dB, that
    one at most the count for 50 dB, that one at most the count for
    40 dB, and that one at most the number of updates; no count is
    negative. *)
Theorem noise_exposure_nested (noise_grids : list noise_grid) (c : Z * Z) :
  Z.of_nat (List.length noise_grids) < 2 ^ 31 ->
  0 <= noise_exposure_very_high (count_exposures noise_grids) c /\
  noise_exposure_very_high (count_exposures noise_grids) c
  <= noise_exposure_high (count_exposures noise_grids) c /\
  noise_exposure_high (count_exposures noise_grids) c
  <= noise_exposure_mid (count_exposures noise_grids) c /\
  noise_exposure_mid (count_exposures noise_grids) c
  <= noise_exposure_low (count_exposures noise_grids) c /\
  noise_exposure_low (count_exposures noise_grids) c
  <= Z.of_nat (List.length noise_grids).
Proof.
  intro Hn. unfold count_exposures.
  apply (count_exposures_invariant noise_grids initial_counters 0 c);
    cbn [initial_counters noise_exposure_low noise_exposure_mid
         noise_exposure_high noise_exposure_very_high]; lia.
Qed.

Lemma noise_exposure_nested_witness :
  0 <= noise_exposure_very_high (count_exposures two_seconds) (0, 0) /\
  noise_exposure_very_high (count_exposures two_seconds) (0, 0)
  <= noise_exposure_high (count_exposures two_seconds) (0, 0) /\
  noise_exposure_high (count_exposures two_seconds) (0, 0)
  <= noise_exposure_mid (count_exposures two_seconds) (0, 0) /\
  noise_exposure_mid (count_exposures two_seconds) (0, 0)
  <= noise_exposure_low (count_exposures two_seconds) (0, 0) /\
  noise_exposure_low (count_exposures two_seconds) (0, 0)
  <= Z.of_nat (List.length two_seconds).
Proof.
  apply (noise_exposure_nested two_seconds (0, 0)).
  simpl. lia.
Defined.

End NoiseExposureCounters.

(* ================================================================== *)
(** * Part IV: the rounding-sensitive steps in binary64 *)
(* ================================================================== *)

(** ** The order of binary64 numbers *)

Section FloatOrder.

Lemma SFcompare_refl (x : spec_float) :
  x <> S754_nan -> SFcompare x x = Some Eq.
Proof.
  destruct x as [s|s| |s m e]; intro H; try congruence.
  - reflexivity.
  - destruct s; reflexivity.
  - cbn [SFcompare]. rewrite Z.compare_refl.
    change (Pos.compare_cont Eq m m) with (Pos.compare m m).
    rewrite Pos.compare_refl. destruct s; reflexivity.
Qed.


Lemma SFleb_le (x y : spec_float) : SFleb x y = true <-> B64.SFle x y.
Proof.
  unfold SFleb, B64.SFle.
  destruct (SFcompare x y) as [[| |]|]; split; intro H;
    try reflexivity; try discriminate; auto;
    destruct H; discriminate.
Qed.



Lemma is_nan_spec (x : float) :
  is_nan x = true <-> Prim2SF x = S754_nan.
Proof.
  unfold is_nan. rewrite eqb_spec. unfold SFeqb.
  destruct (Prim2SF x) as [s|s| |s m e] eqn:E.
  - cbn. split; [discriminate | discriminate].
  - destruct s; cbn; split; discriminate.
  - cbn. split; reflexivity.
  - rewrite SFcompare_refl by discriminate. cbn. split; discriminate.
Qed.

Lemma is_number_spec (x : float) :
  is_nan x = false <-> Prim2SF x <> S754_nan.
Proof.
  rewrite <- is_nan_spec. destruct (is_nan x); split; congruence.
Qed.

Lemma leb_le (x y : float) :
  PrimFloat.leb x y = true <-> B64.SFle (Prim2SF x) (Prim2SF y).
Proof. rewrite leb_spec. apply SFleb_le. Qed.

Lemma leb_number (x y : float) :
  PrimFloat.leb x y = true -> is_nan x = false /\ is_nan y = false.
Proof.
  rewrite leb_le, !is_number_spec. unfold B64.SFle.
  destruct (Prim2SF x), (Prim2SF y); cbn [SFcompare];
    intros [H|H]; try discriminate; split; discriminate.
Qed.





End FloatOrder.

(* ------------------------------------------------------------------ *)
(** ** The time step in binary64 *)

Section TimestepBinary64.

Local Open Scope float_scope.

(** C5 (a defect of the code).  For cells of 1 m, [diffusion = 2],
    [loss_rate = 0.5] and [safety_factor = 0.25] the stable step times
    the safety factor is 1/49 s, so the smallest [n] with
    [1/n <= dt_max * safety_factor] is 49, and in binary64 the driver's
    own test [1/49 <= dt] holds.  The driver computes [1/dt], which is
    rounded to 49.000000000000007, takes its ceiling, and so steps with
    [n = 50] and [dt = 0.02]. *)
Theorem timestep_not_smallest :
  exists dt,
    B64.calculate_optimal_dt 1 1 1 2 0.5 0.25 = Some dt /\
    B64.substeps dt = Some 50%Z /\
    B64.fit_dt_to_second dt = Some 0.02 /\
    (B64.of_int 1 / B64.of_int 49 <=? dt) = true /\
    exists q : Q,
      calculate_optimal_dt 1 1 1 2 (1 # 2) (1 # 4) = Some q /\
      (q == 1 # 49)%Q.
Proof.
  eexists. split; [vm_compute; reflexivity|].
  split; [vm_compute; reflexivity|].
  split; [vm_compute; reflexivity|].
  split; [vm_compute; reflexivity|].
  eexists. split; [vm_compute; reflexivity|].
  reflexivity.
Qed.

End TimestepBinary64.

(* ------------------------------------------------------------------ *)
(** ** The overall statistics in binary64 *)

Section StatisticsBinary64.

Local Open Scope float_scope.









End StatisticsBinary64.

(* ------------------------------------------------------------------ *)
(** ** The diffusion step in binary64 *)

Section DiffusionBinary64.

Local Open Scope float_scope.

(** *** Zeros and NaN in the arithmetic *)



Lemma eqb_refl (x : float) : is_nan x = false -> (x =? x) = true.
Proof.
  rewrite is_number_spec, eqb_spec. intro H. unfold SFeqb.
  now rewrite SFcompare_refl.
Qed.












(** *** The loops, cell by cell *)










(** *** No diffusion and no loss *)







End DiffusionBinary64.

(* ------------------------------------------------------------------ *)
(** ** The noise field, from binary64 positions *)

Section NoiseBinary64.

Local Open Scope R_scope.

(** One source whose position the code turns into the cell
    [(x_idx, y_idx)] of the grid: the field that [process_noise] returns,
    read in that cell. *)
Lemma b64_process_noise_single (cfg : config) (x y : float)
    (source_level cell_len_x cell_len_y radius background_dB : R)
    (cell_dim_x cell_dim_y : float) (x_idx y_idx : Z) :
  0 < cell_len_x -> 0 < cell_len_y -> 0 <= radius ->
  B64.cell_dim (GRID_LEFT cfg) (GRID_RIGHT cfg) (GRID_DIM_X cfg)
  = Some cell_dim_x ->
  B64.cell_dim (GRID_BOTTOM cfg) (GRID_TOP cfg) (GRID_DIM_Y cfg)
  = Some cell_dim_y ->
  B64.cell_index x (GRID_LEFT cfg) cell_dim_x = Some x_idx ->
  B64.cell_index y (GRID_BOTTOM cfg) cell_dim_y = Some y_idx ->
  (0 <= x_idx < Z.of_nat (GRID_DIM_X cfg))%Z ->
  (0 <= y_idx < Z.of_nat (GRID_DIM_Y cfg))%Z ->
  exists result,
    B64.process_noise cfg [x] [y] [source_level] cell_len_x cell_len_y
      radius background_dB = Some result /\
    result (x_idx, y_idx) = level_at_source source_level background_dB.
Proof.
  intros Hclx Hcly Hrad Hcdx Hcdy Hxi Hyi Hx Hy.
  assert (Hrx : (0 <= Rtruncate (radius / cell_len_x))%Z).
  { apply Rtruncate_nonneg. apply Rmult_le_pos; [exact Hrad|].
    apply Rlt_le. now apply Rinv_0_lt_compat. }
  assert (Hry : (0 <= Rtruncate (radius / cell_len_y))%Z).
  { apply Rtruncate_nonneg. apply Rmult_le_pos; [exact Hrad|].
    apply Rlt_le. now apply Rinv_0_lt_compat. }
  unfold B64.process_noise. rewrite Hcdx, Hcdy.
  cbn [bind combine fold_left].
  unfold B64.noise_source. cbn [fst snd]. rewrite Hxi, Hyi. cbn [bind].
  unfold noise_source_at.
  destruct (Z.leb_spec 0 x_idx); [|lia].
  destruct (Z.ltb_spec x_idx (Z.of_nat (GRID_DIM_X cfg))); [|lia].
  destruct (Z.leb_spec 0 y_idx); [|lia].
  destruct (Z.ltb_spec y_idx (Z.of_nat (GRID_DIM_Y cfg))); [|lia].
  cbn [andb negb].
  rewrite (Rdiv_checked_nonzero radius cell_len_x) by lra. cbn [bind].
  rewrite (Rdiv_checked_nonzero radius cell_len_y) by lra. cbn [bind].
  eexists. split; [reflexivity|]. cbv beta.
  rewrite add_source_at_source by lia.
  unfold level_at_source, linear_contribution.
  rewrite (Rmax_right 0 1) by lra. reflexivity.
Qed.

(** C2, as the code has it: for a single source whose position the code
    turns into a cell of the grid ([int()] of the binary64 quotient), with
    positive cell sizes and a non-negative cutoff radius, [process_noise]
    returns a field whose value in the cell of the source is
    [10 * log10(10^(background/10) + 10^((Lw - 10*log10(4*pi))/10))]
    with [Lw = max(source_level, background)]: the background power plus
    the source power attenuated over the sphere of radius 1 m. *)
Theorem noise_at_single_source (cfg : config) (x y : float)
    (source_level cell_len_x cell_len_y radius background_dB : R)
    (cell_dim_x cell_dim_y : float) (x_idx y_idx : Z) :
  B64.grid_fits cfg ->
  0 < cell_len_x -> 0 < cell_len_y -> 0 <= radius ->
  B64.cell_dim (GRID_LEFT cfg) (GRID_RIGHT cfg) (GRID_DIM_X cfg)
  = Some cell_dim_x ->
  B64.cell_dim (GRID_BOTTOM cfg) (GRID_TOP cfg) (GRID_DIM_Y cfg)
  = Some cell_dim_y ->
  B64.cell_index x (GRID_LEFT cfg) cell_dim_x = Some x_idx ->
  B64.cell_index y (GRID_BOTTOM cfg) cell_dim_y = Some y_idx ->
  (0 <= x_idx < Z.of_nat (GRID_DIM_X cfg))%Z ->
  (0 <= y_idx < Z.of_nat (GRID_DIM_Y cfg))%Z ->
  exists result,
    B64.process_noise cfg [x] [y] [source_level] cell_len_x cell_len_y
      radius background_dB = Some result /\
    result (x_idx, y_idx)
    = 10 * np_log10
             (pow10 (background_dB / 10)
              + pow10 ((Rmax source_level background_dB
                        - 10 * np_log10 (4 * PI * 1)) / 10)).
Proof.
  intros _. apply b64_process_noise_single.
Qed.

(** On the grid of Erstfeld the position (17000, 35272) lies in the cell
    (13, 24): the quotient 272 / 10.88 is 24.999999999999996 in
    binary64. *)
Lemma noise_at_single_source_witness :
  exists result,
    B64.process_noise erstfeld [17000%float] [35272%float] [80] 10 10 500 30
    = Some result /\
    result (13%Z, 24%Z)
    = 10 * np_log10
             (pow10 (30 / 10)
              + pow10 ((Rmax 80 30 - 10 * np_log10 (4 * PI * 1)) / 10)).
Proof.
  apply (noise_at_single_source erstfeld 17000%float 35272%float
           80 10 10 500 30 11.125%float 10.88%float 13 24).
  - unfold B64.grid_fits. cbn. lia.
  - lra.
  - lra.
  - lra.
  - vm_compute. reflexivity.
  - vm_compute. reflexivity.
  - vm_compute. reflexivity.
  - vm_compute. reflexivity.
  - cbn. lia.
  - cbn. lia.
Defined.

(** C2 as stated fails: for a single source of 80 dB at distance 0 from
    its cell (13, 24), over a background of 30 dB, the level of the cell
    is more than 10 dB below [max(80, 30)]. *)
Lemma noise_at_source_is_not_max :
  exists result,
    B64.process_noise erstfeld [17000%float] [35272%float] [80] 10 10 500 30
    = Some result /\
    result (13%Z, 24%Z) < Rmax 80 30 - 10.
Proof.
  destruct (b64_process_noise_single erstfeld 17000%float 35272%float
              80 10 10 500 30 11.125%float 10.88%float 13 24)
    as (result & Hrun & Hlevel);
    [ lra | lra | lra
    | vm_compute; reflexivity | vm_compute; reflexivity
    | vm_compute; reflexivity | vm_compute; reflexivity
    | cbn; lia | cbn; lia |].
  exists result. split; [exact Hrun|].
  rewrite Hlevel, (Rmax_left 80 30) by lra.
  pose proof level_at_source_80_30. lra.
Qed.




End NoiseBinary64.
